(** * match_reports: the shaping and reporting classes of
      [scripts/initialize_classes.py]

    A shallow embedding of the [Scraper], [Preprocessor], [LLM], [Streamlit]
    and [Orchestrator] classes.
    Python values are an inductive type, exceptions are the [Raise] branch of
    a result monad, and the collaborators that live outside the repository
    (the provider clients, the HTTP client, the JSON codec, the float parser)
    are section variables. *)

From Stdlib Require Import ZArith List String Ascii Bool Lia Permutation.
From Stdlib Require Import Sorting.Sorted Structures.OrderedTypeEx.
From Stdlib Require Import Numbers.DecimalString.
From Stdlib Require Import Floats.SpecFloat.
From ExtLib Require Import Structures.Monad.
Import ListNotations.
Import MonadNotation.
Local Open Scope string_scope.
Local Open Scope monad_scope.

(** ** Exceptions and results *)

Module Py.

(** The exception classes the module can meet. *)
Inductive exn : Type :=
| KeyError
| TypeError
| ValueError
| AttributeError
| OverflowError
| JSONDecodeError          (* json.JSONDecodeError, a ValueError *)
| RequestException         (* requests.exceptions.RequestException *)
| ConnectionError          (* requests.exceptions.ConnectionError *)
| RequestsJSONDecodeError. (* requests.exceptions.JSONDecodeError *)

Definition exn_eqb (a b : exn) : bool :=
  match a, b with
  | KeyError, KeyError | TypeError, TypeError | ValueError, ValueError
  | AttributeError, AttributeError | OverflowError, OverflowError
  | JSONDecodeError, JSONDecodeError | RequestException, RequestException
  | ConnectionError, ConnectionError
  | RequestsJSONDecodeError, RequestsJSONDecodeError => true
  | _, _ => false
  end.

(** [exn_isa e c]: an exception of class [e] is an instance of class [c]. *)
Definition exn_isa (e c : exn) : bool :=
  exn_eqb e c ||
  match e, c with
  | JSONDecodeError, ValueError => true
  | RequestsJSONDecodeError, (RequestException | JSONDecodeError | ValueError) => true
  | ConnectionError, RequestException => true
  | _, _ => false
  end.

Inductive result (A : Type) : Type :=
| Return (a : A)
| Raise (e : exn).
Arguments Return {A} a.
Arguments Raise {A} e.

Definition result_bind {A B : Type} (c : result A) (k : A -> result B) : result B :=
  match c with
  | Return a => k a
  | Raise e => Raise e
  end.

#[export] Instance Monad_result : Monad result :=
  {| ret := @Return; bind := @result_bind |}.

(** [try: body except (c1, ..., cn): handler].  The tuple of classes is an
    expression: Python evaluates it only once the body has raised, and an
    exception raised while evaluating it replaces the one being handled. *)
Definition try_except {A : Type} (body : result A)
    (classes : result (list exn)) (handler : result A) : result A :=
  match body with
  | Return a => Return a
  | Raise e =>
      match classes with
      | Return cs => if existsb (exn_isa e) cs then handler else Raise e
      | Raise e' => Raise e'
      end
  end.

(** [try: body except: handler], the bare clause that catches everything. *)
Definition try_except_all {A : Type} (body : result A) (handler : result A) : result A :=
  match body with
  | Return a => Return a
  | Raise _ => handler
  end.

(** [for x in xs: acc = step acc x], stopping at the first exception. *)
Fixpoint for_each {A S : Type} (step : S -> A -> result S) (xs : list A) (acc : S)
  : result S :=
  match xs with
  | [] => Return acc
  | x :: xs' =>
      match step acc x with
      | Return acc' => for_each step xs' acc'
      | Raise e => Raise e
      end
  end.

(** ** Values *)

#[local] Set Warnings "-register-all".

(** The values that flow through the module: what the providers' JSON
    decodes to.  A [float] is an IEEE binary64, dict keys are strings. *)
Inductive value : Type :=
| VNone
| VBool (b : bool)
| VInt (n : Z)
| VFloat (f : spec_float)
| VStr (s : string)
| VList (l : list value)
| VDict (d : list (string * value)).

Definition isinstance_float (v : value) : bool :=
  match v with VFloat _ => true | _ => false end.
Definition isinstance_str (v : value) : bool :=
  match v with VStr _ => true | _ => false end.
Definition isinstance_dict (v : value) : bool :=
  match v with VDict _ => true | _ => false end.

Fixpoint dict_get (d : list (string * value)) (k : string) : option value :=
  match d with
  | [] => None
  | (k', v) :: d' => if String.eqb k' k then Some v else dict_get d' k
  end.

(** [v[k]] for a string key [k]: only a dict can be indexed by a string. *)
Definition subscript (v : value) (k : string) : result value :=
  match v with
  | VDict d =>
      match dict_get d k with
      | Some x => Return x
      | None => Raise KeyError
      end
  | _ => Raise TypeError
  end.

(** [float(n)] for an int: correctly rounded, [OverflowError] beyond the
    binary64 range. *)
Definition float_of_int (n : Z) : result spec_float :=
  match binary_normalize 53 1024 n 0 false with
  | S754_infinity _ => Raise OverflowError
  | f => Return f
  end.

(** Decimal text of an int, as [str(n)] prints it. *)
Definition str_int (n : Z) : string := NilZero.string_of_int (Z.to_int n).

Definition nl : string := String (ascii_of_nat 10) EmptyString.


End Py.
Import Py.

(** ** The name [json]

    [extract_country_name] reads [json] as the imported module.  In
    [extract_rating] the parameter is itself called [json], so inside that
    method the name is bound to the argument. *)

Module Names.

Inductive binding : Type :=
| JsonModule
| Local (v : value).

Section Attributes.

(** The decoder behind [json.loads]; [None] stands for a
    [json.JSONDecodeError]. *)
Variable json_decode : string -> option value.

Definition json_loads (arg : value) : result value :=
  match arg with
  | VStr s =>
      match json_decode s with
      | Some v => Return v
      | None => Raise JSONDecodeError
      end
  | _ => Raise TypeError
  end.

(** [b.loads]: none of the builtin types of [value] has such an attribute. *)
Definition attr_loads (b : binding) : result (value -> result value) :=
  match b with
  | JsonModule => Return json_loads
  | Local _ => Raise AttributeError
  end.

(** [b.JSONDecodeError], likewise. *)
Definition attr_JSONDecodeError (b : binding) : result exn :=
  match b with
  | JsonModule => Return JSONDecodeError
  | Local _ => Raise AttributeError
  end.

End Attributes.

End Names.
Import Names.

(** ** Preprocessor: the two record-level extractors *)

Module Extractors.

Section Extractors.

Variable json_decode : string -> option value.

(** The parser behind [float(s)] for a string; [None] stands for a
    [ValueError]. *)
Variable float_of_string : string -> option spec_float.

(** The builtin [float(v)]. *)
Definition py_float (v : value) : result spec_float :=
  match v with
  | VFloat f => Return f
  | VInt n => float_of_int n
  | VBool b => float_of_int (if b then 1 else 0)
  | VStr s =>
      match float_of_string s with
      | Some f => Return f
      | None => Raise ValueError
      end
  | VNone | VList _ | VDict _ => Raise TypeError
  end.

(** [Preprocessor.extract_country_name] *)
Definition extract_country_name (json_dict : value) : result value :=
  try_except
    (subscript json_dict "name")
    (c <- attr_JSONDecodeError JsonModule ;; ret [c; KeyError])
    (Return VNone).

(** [Preprocessor.extract_rating]; the parameter [json] shadows the module. *)
Definition extract_rating (json : value) : result value :=
  if isinstance_float json then Return json
  else if isinstance_str json then
    try_except
      (loads <- attr_loads json_decode (Local json) ;;
       data_dict <- loads json ;;
       original <- subscript data_dict "original" ;;
       f <- py_float original ;;
       ret (VFloat f))
      (c <- attr_JSONDecodeError (Local json) ;;
       ret [c; KeyError; TypeError; ValueError])
      (Return VNone)
  else if isinstance_dict json then
    try_except
      (original <- subscript json "original" ;;
       f <- py_float original ;;
       ret (VFloat f))
      (c <- attr_JSONDecodeError (Local json) ;;
       ret [c; KeyError; TypeError; ValueError])
      (Return VNone)
  else Return VNone.

End Extractors.

End Extractors.

(** ** Data frames of player records *)

Module Frame.

(** A frame is stored by column, as pandas does: the row labels and, for
  each column name, one cell per row.  [Scraper.get_player_stats] removes
  duplicated columns, so a name is looked up at its first occurrence. *)
Record DataFrame : Type := mkFrame
{ index : list Z;
  columns : list (string * list value) }.

Definition column_names (df : DataFrame) : list string := map fst (columns df).

Definition has_column (df : DataFrame) (name : string) : bool :=
existsb (String.eqb name) (column_names df).

Fixpoint find_column (cols : list (string * list value)) (name : string)
: option (list value) :=
match cols with
| [] => None
| (n, c) :: cols' => if String.eqb n name then Some c else find_column cols' name
end.

(** [df[name]] *)
Definition getitem (df : DataFrame) (name : string) : result (list value) :=
match find_column (columns df) name with
| Some c => Return c
| None => Raise KeyError
end.

(** [df.name] *)
Definition getattr (df : DataFrame) (name : string) : result (list value) :=
match find_column (columns df) name with
| Some c => Return c
| None => Raise AttributeError
end.

(** [series == lit], cell by cell. *)
Definition series_eq (s : list value) (lit : string) : list bool :=
map (fun v => match v with VStr x => String.eqb x lit | _ => false end) s.

Fixpoint select {A : Type} (mask : list bool) (xs : list A) : list A :=
match mask, xs with
| b :: mask', x :: xs' => if b then x :: select mask' xs' else select mask' xs'
| _, _ => []
end.

(** [df.loc[mask]] and [df[mask]]: a new frame with the rows the mask keeps. *)
Definition loc (df : DataFrame) (mask : list bool) : DataFrame :=
{| index := select mask (index df);
   columns := map (fun nc => (fst nc, select mask (snd nc))) (columns df) |}.

Definition mem_string (x : string) (l : list string) : bool := existsb (String.eqb x) l.
Definition mem_label (x : Z) (l : list Z) : bool := existsb (Z.eqb x) l.

(** [df.drop(labels, axis=1)]: every label must name a column, otherwise
  [KeyError] is raised and nothing is dropped. *)
Definition drop_columns (df : DataFrame) (labels : list string) : result DataFrame :=
if forallb (fun l => mem_string l (column_names df)) labels
then Return {| index := index df;
               columns := filter (fun nc => negb (mem_string (fst nc) labels)) (columns df) |}
else Raise KeyError.

(** [df.drop(labels)] on the rows, with the same rule for unknown labels. *)
Definition drop_rows (df : DataFrame) (labels : list Z) : result DataFrame :=
if forallb (fun l => mem_label l (index df)) labels
then Return (loc df (map (fun l => negb (mem_label l labels)) (index df)))
else Raise KeyError.

End Frame.

(** ** Preprocessor: the position filter *)

Module PositionFilter.
Import Frame.

Definition gk_drop_list : list string :=
["totalCross"; "shotOffTarget"; "onTargetScoringAttempt"; "expectedGoals";
 "bigChanceMissed"; "outfielderBlock"; "accurateCross"; "goals"; "totalOffside"].

Definition outfield_drop_list : list string :=
["goodHighClaim"; "savedShotsFromInsideTheBox"; "saves"; "punches";
 "totalKeeperSweeper"; "accurateKeeperSweeper"; "goalsPrevented"].

(** [Preprocessor.preprocess_gk].  [gk_df] is a new frame; the drop is in
  place on it and any exception of the drop is passed over. *)
Definition preprocess_gk (df : DataFrame) : result DataFrame :=
position <- getitem df "position" ;;
let gk_df := loc df (series_eq position "G") in
gk_df <- try_except_all (drop_columns gk_df gk_drop_list) (Return gk_df) ;;
ret gk_df.

(** [Preprocessor.preprocess_outfield].  The column drop is in place on the
  argument; the row drop builds a frame that is not kept; the argument is
  what is returned. *)
Definition preprocess_outfield (df : DataFrame) : result DataFrame :=
df <- try_except_all (drop_columns df outfield_drop_list) (Return df) ;;
position <- getattr df "position" ;;
let goalkeepers := loc df (series_eq position "GK") in
_ <- drop_rows df (index goalkeepers) ;;
ret df.

(** A record is identified by its row label. *)
Definition in_subset (label : Z) (subset : DataFrame) : Prop := In label (index subset).

(** Two players, a goalkeeper and a defender, and no optional column. *)
Definition two_players : DataFrame :=
{| index := [0; 1]%Z;
   columns := [("name", [VStr "Alisson"; VStr "Virgil"]);
               ("position", [VStr "G"; VStr "D"])] |}.

End PositionFilter.

(** ** Scraper *)

Module Scraper.

Section Scraper.

(** The outside world the provider clients talk to. *)
Context {World : Type}.
(** [ScraperFC]'s two clients and the calls the class makes on them. *)
Context {Sofascore Understat : Type}.
Variable sfc_Sofascore : Sofascore.
Variable sfc_Understat : Understat.
Variable get_match_dict : Sofascore -> string -> World -> result value * World.
Variable scrape_match : Understat -> string -> World -> result value * World.

Record Scraper : Type := mkScraper
  { url : string;
    ss : Sofascore;
    us : Understat }.

(** [Scraper.__init__] *)
Definition init (url : string) : Scraper :=
  {| url := url; ss := sfc_Sofascore; us := sfc_Understat |}.

(** [Scraper.get_match_stats] *)
Definition get_match_stats (self : Scraper) : World -> result value * World :=
  get_match_dict (ss self) (url self).

(** [Scraper.get_understat_match] *)
Definition get_understat_match (self : Scraper) : World -> result value * World :=
  scrape_match (us self) "https://understat.com/match/26631".

End Scraper.

End Scraper.

(** ** LLM *)

Module LLM.

Record request : Type := mkRequest
{ req_url : string;
  req_headers : list (string * string);
  req_body : string }.

Record response : Type := mkResponse
{ status_code : Z;
  text : string }.

Section LLM.

Context {World : Type}.
(** [requests.post]: a response, or an exception of the HTTP client. *)
Variable requests_post : request -> World -> result response * World.
(** [print] *)
Variable print : value -> World -> World.
Variable json_dumps : value -> string.
Variable json_decode : string -> option value.
(** [str(e)] for a caught exception. *)
Variable str_exn : exn -> string.

(** Computations that reach the world and may raise. *)
Definition M (A : Type) : Type := World -> result A * World.

Definition M_bind {A B : Type} (c : M A) (k : A -> M B) : M B :=
  fun w =>
    match c w with
    | (Return a, w') => k a w'
    | (Raise e, w') => (Raise e, w')
    end.

#[local] Instance Monad_M : Monad M :=
  {| ret := fun A (a : A) w => (Return a, w); bind := @M_bind |}.

Definition lift {A : Type} (r : result A) : M A := fun w => (r, w).

Definition do_print (v : value) : M unit := fun w => (Return tt, print v w).

Definition try_except_M {A : Type} (body : M A) (classes : list exn)
    (handler : exn -> M A) : M A :=
  fun w =>
    match body w with
    | (Return a, w') => (Return a, w')
    | (Raise e, w') =>
        if existsb (exn_isa e) classes then handler e w' else (Raise e, w')
    end.

(** [response.json()] *)
Definition response_json (r : response) : result value :=
  match json_decode (text r) with
  | Some v => Return v
  | None => Raise RequestsJSONDecodeError
  end.

(** [v.get(k, default)]: a method of dicts only. *)
Definition method_get (v : value) (k : string) (default : value) : result value :=
  match v with
  | VDict d =>
      match dict_get d k with
      | Some x => Return x
      | None => Return default
      end
  | _ => Raise AttributeError
  end.

Definition self_url : string := "http://127.0.0.1:11434/api/generate".
Definition self_headers : list (string * string) :=
  [("Content-Type", "application/json")].

Definition request_data (prompt : string) : value :=
  VDict [("model", VStr "llama3.1"); ("prompt", VStr prompt); ("stream", VBool false)].

Definition error_report (status : Z) (body : string) : string :=
  "Error:, " ++ str_int status ++ ", " ++ body ++ ", unluggy no report".

(** [LLM.general_match_report] *)
Definition general_match_report (prompt : string) : M value :=
  let data := request_data prompt in
  response <- requests_post (mkRequest self_url self_headers (json_dumps data)) ;;
  dr <- (if (status_code response =? 200)%Z then
           let response_text := text response in
           data <- lift (json_loads json_decode (VStr response_text)) ;;
           generated_report <- lift (subscript data "response") ;;
           ret (data, generated_report)
         else
           ret (data, VStr (error_report (status_code response) (text response)))) ;;
  let data := fst dr in
  let generated_report := snd dr in
  try_except_M
    (response <- requests_post (mkRequest self_url self_headers (json_dumps data)) ;;
     if (status_code response =? 200)%Z then
       body <- lift (response_json response) ;;
       report <- lift (method_get body "text" (VStr "No report generated")) ;;
       do_print report
     else
       do_print (VStr ("Error: " ++ str_int (status_code response) ++ " - "
                         ++ text response)))
    [RequestException]
    (fun e => do_print (VStr ("Connection error: " ++ str_exn e))) ;;
  ret generated_report.

(** The request both posts carry when the first answer is not a success. *)
Definition the_request (prompt : string) : request :=
  mkRequest self_url self_headers (json_dumps (request_data prompt)).

(** The service did not answer with success: another status, or the
    request failed inside the HTTP client. *)
Definition non_success (o : result response) : Prop :=
  match o with
  | Return r => status_code r <> 200%Z
  | Raise e => exn_isa e RequestException = true
  end.

End LLM.

(** A service that is down for maintenance: every post is answered 503.
    The world counts the posts. *)
Definition maintenance (r : request) (w : nat) : result response * nat :=
  (Return (mkResponse 503 "Service Unavailable"), S w).

(** A service that fails once and then answers 200 with a JSON array. *)
Definition flaky (r : request) (w : nat) : result response * nat :=
  match w with
  | O => (Return (mkResponse 503 "Service Unavailable"), S w)
  | S _ => (Return (mkResponse 200 "[]"), S w)
  end.

End LLM.


(** ** Sorted distinct labels *)

Module Labels.

(** A comparison that is a strict total order, as [<] is on Python strings
    and on tuples of them. *)
Class TotalCmp {K : Type} (cmp : K -> K -> comparison) : Prop :=
  { cmp_eq : forall a b, cmp a b = Eq <-> a = b;
    cmp_antisym : forall a b, cmp b a = CompOpp (cmp a b);
    cmp_trans : forall a b c, cmp a b = Lt -> cmp b c = Lt -> cmp a c = Lt }.

(** Tuples compare component by component. *)
Definition cmp_lex {A B : Type} (cmpA : A -> A -> comparison)
    (cmpB : B -> B -> comparison) (x y : A * B) : comparison :=
  match cmpA (fst x) (fst y) with
  | Eq => cmpB (snd x) (snd y)
  | c => c
  end.

Section SortUnique.

Context {K : Type}.
Variable cmp : K -> K -> comparison.

Fixpoint insert (x : K) (l : list K) : list K :=
  match l with
  | [] => [x]
  | y :: l' =>
      match cmp x y with
      | Lt => x :: l
      | Eq => l
      | Gt => y :: insert x l'
      end
  end.

(** The distinct elements of [l] in increasing order. *)
Definition sort_unique (l : list K) : list K := fold_right insert [] l.

Definition lt (a b : K) : Prop := cmp a b = Lt.

End SortUnique.

End Labels.

(** ** Team statistics and their pivot *)

Module Pivot.
Import Labels.

(** A cell of the [home] or [away] column: the provider's display text
    (["53%"], ["12"]), or nothing when the value is NaN or None. *)
Definition cell : Type := option string.

(** One row of the team statistics frame, with the five columns the pivot
    reads. *)
Record StatRow : Type := mkStat
  { key : string;
    group : string;
    period : string;
    home : cell;
    away : cell }.

Inductive side : Type := Home | Away.

Definition side_of (s : side) (r : StatRow) : cell :=
  match s with Home => home r | Away => away r end.

(** [pd.notna] *)
Definition notna (c : cell) : bool :=
  match c with Some _ => true | None => false end.

(** The index of the pivot: [(key, group)]. *)
Definition gkey : Type := (string * string)%type.
(** The grouping keys: [(key, group, period)]. *)
Definition gkey3 : Type := (gkey * string)%type.
(** A column of the pivot: [('home', period)] or [('away', period)]. *)
Definition label : Type := (side * string)%type.

Definition cmp_gkey : gkey -> gkey -> comparison := cmp_lex String.compare String.compare.
Definition cmp_gkey3 : gkey3 -> gkey3 -> comparison := cmp_lex cmp_gkey String.compare.

Definition keys_of (r : StatRow) : gkey3 := ((key r, group r), period r).

Definition gkey_eqb (a b : gkey) : bool :=
  String.eqb (fst a) (fst b) && String.eqb (snd a) (snd b).
Definition gkey3_eqb (a b : gkey3) : bool :=
  gkey_eqb (fst a) (fst b) && String.eqb (snd a) (snd b).
Definition side_eqb (a b : side) : bool :=
  match a, b with Home, Home | Away, Away => true | _, _ => false end.
Definition label_eqb (a b : label) : bool :=
  side_eqb (fst a) (fst b) && String.eqb (snd a) (snd b).

(** The aggregation ['first']: the first value of the group that is not
    null. *)
Fixpoint first_valid (cs : list cell) : cell :=
  match cs with
  | [] => None
  | Some v :: _ => Some v
  | None :: cs' => first_valid cs'
  end.

Record AggRow : Type := mkAgg
  { agg_keys : gkey3;
    agg_home : cell;
    agg_away : cell }.

(** [data.groupby(['key', 'group', 'period']).agg('first')], the groups in
    sorted order. *)
Definition groupby_first (rows : list StatRow) : list AggRow :=
  map (fun t =>
         let members := filter (fun r => gkey3_eqb (keys_of r) t) rows in
         {| agg_keys := t;
            agg_home := first_valid (map home members);
            agg_away := first_valid (map away members) |})
      (sort_unique cmp_gkey3 (map keys_of rows)).

(** [agged.dropna(how='all')] *)
Definition dropna_rows (agged : list AggRow) : list AggRow :=
  filter (fun a => notna (agg_home a) || notna (agg_away a)) agged.

(** A frame indexed by [(key, group)] with the two-level columns. *)
Record PivotFrame : Type := mkPivot
  { pv_index : list gkey;
    pv_columns : list label;
    pv_cell : gkey -> label -> cell }.

Definition agg_lookup (agged : list AggRow) (i : gkey) (c : label) : cell :=
  match find (fun a => gkey3_eqb (agg_keys a) (i, snd c)) agged with
  | Some a => match fst c with Home => agg_home a | Away => agg_away a end
  | None => None
  end.

(** [agged.unstack('period')] followed by [sort_index(axis=1)]: the rows are
    the sorted [(key, group)] pairs, the columns the away values then the
    home values, each by sorted period; a pair without a value for a period
    gets NaN there. *)
Definition unstack (agged : list AggRow) : PivotFrame :=
  let periods := sort_unique String.compare (map (fun a => snd (agg_keys a)) agged) in
  {| pv_index := sort_unique cmp_gkey (map (fun a => fst (agg_keys a)) agged);
     pv_columns := map (pair Away) periods ++ map (pair Home) periods;
     pv_cell := agg_lookup agged |}.

(** [table.dropna(how='all', axis=1)] *)
Definition dropna_columns (pv : PivotFrame) : PivotFrame :=
  {| pv_index := pv_index pv;
     pv_columns :=
       filter (fun c => existsb (fun i => notna (pv_cell pv i c)) (pv_index pv))
              (pv_columns pv);
     pv_cell := pv_cell pv |}.

(** [game_stats.pivot_table(index=['key', 'group'], columns='period',
    values=['home', 'away'], aggfunc='first')], with the defaults
    [sort=True] and [dropna=True].  A table in which no cell has a value
    gives a pivot without rows. *)
Definition pivot_table (game_stats : list StatRow) : PivotFrame :=
  dropna_columns (unstack (dropna_rows (groupby_first game_stats))).

(** A row as [iterrows] yields it: a series over the column labels. *)
Record Series : Type := mkSeries
  { s_labels : list label;
    s_cell : label -> cell }.

Definition iterrows (pv : PivotFrame) : list (gkey * Series) :=
  map (fun i => (i, {| s_labels := pv_columns pv; s_cell := pv_cell pv i |}))
      (pv_index pv).

(** [row[c]] *)
Definition series_getitem (row : Series) (c : label) : result cell :=
  if existsb (label_eqb c) (s_labels row) then Return (s_cell row c)
  else Raise KeyError.

End Pivot.

(** ** Preprocessor: the prompt *)

Module Prompt.
Import Labels Pivot.

(** [f"{c}"] for a cell. *)
Definition format_cell (c : cell) : string :=
  match c with Some s => s | None => "nan" end.

Definition periods : list string := ["ALL"; "1ST"; "2ND"].

(** The body of the loop over the periods. *)
Definition period_step (row : Series) (prompt : string) (period : string)
  : result string :=
  home <- series_getitem row (Home, period) ;;
  away <- series_getitem row (Away, period) ;;
  if notna home && notna away then
    ret (prompt ++ period ++ ": Home " ++ format_cell home ++ ", Away "
           ++ format_cell away ++ "; ")
  else if notna home then
    ret (prompt ++ period ++ ": Home " ++ format_cell home ++ "; ")
  else if notna away then
    ret (prompt ++ period ++ ": Away " ++ format_cell away ++ "; ")
  else ret prompt.

(** The body of the loop over the rows of the pivot. *)
Definition row_step (prompt : string) (ir : gkey * Series) : result string :=
  let event := fst (fst ir) in
  let prompt := prompt ++ event ++ ": " in
  prompt <- for_each (period_step (snd ir)) periods prompt ;;
  ret (prompt ++ nl ++ nl).

(** [d[k1][k2]...] *)
Definition path (d : value) (ks : list string) : result value :=
  for_each subscript ks d.

(** The general match information the prompt reports. *)
Record Metadata : Type := mkMeta
  { comp : value; season : value; gw : value;
    home_team : value; h_manager : value;
    away_team : value; a_manager : value;
    stadium : value;
    ht_h_score : value; ft_h_score : value;
    ht_a_score : value; ft_a_score : value }.

Definition read_metadata (match_dict : value) : result Metadata :=
  comp <- path match_dict ["tournament"; "name"] ;;
  season <- path match_dict ["season"; "year"] ;;
  gw <- path match_dict ["roundInfo"; "round"] ;;
  home_team <- path match_dict ["homeTeam"; "name"] ;;
  h_manager <- path match_dict ["homeTeam"; "manager"; "name"] ;;
  away_team <- path match_dict ["awayTeam"; "name"] ;;
  a_manager <- path match_dict ["awayTeam"; "manager"; "name"] ;;
  stadium <- path match_dict ["venue"; "stadium"; "name"] ;;
  ht_h_score <- path match_dict ["homeScore"; "period1"] ;;
  ft_h_score <- path match_dict ["homeScore"; "current"] ;;
  ht_a_score <- path match_dict ["awayScore"; "period1"] ;;
  ft_a_score <- path match_dict ["awayScore"; "current"] ;;
  ret (mkMeta comp season gw home_team h_manager away_team a_manager stadium
              ht_h_score ft_h_score ht_a_score ft_a_score).

Definition header : string := "Match Stats Summary: " ++ nl ++ nl.

Definition closing_instruction : string :=
  "Generate an interesting and extensive match report, utilising only the information given."
  ++ "Start off with the competition, gameweek, teams and score. Do not make "
  ++ "anything up. Do not assume anything. The only true facts are provided.".

Section Builder.

(** [f"{v}"] for the values that are neither text nor whole numbers. *)
Variable format_other : value -> string.

Definition py_format (v : value) : string :=
  match v with
  | VStr s => s
  | VInt n => str_int n
  | VBool true => "True"
  | VBool false => "False"
  | VNone => "None"
  | _ => format_other v
  end.

Definition metadata_section (m : Metadata) : string :=
  "Competition: " ++ py_format (comp m) ++ " - Season: " ++ py_format (season m)
   ++ " - Gameweek: " ++ py_format (gw m) ++ " at Stadium: " ++ py_format (stadium m)
   ++ nl ++ nl
   ++ "Home Team: " ++ py_format (home_team m) ++ ", Home Team Manager: "
   ++ py_format (h_manager m) ++ nl ++ nl
   ++ "Away Team: " ++ py_format (away_team m) ++ ", Away Team Manager: "
   ++ py_format (a_manager m) ++ nl ++ nl
   ++ "Score at half time " ++ py_format (home_team m) ++ ": " ++ py_format (ht_h_score m)
   ++ ", " ++ py_format (away_team m) ++ ": " ++ py_format (ht_a_score m) ++ nl ++ nl
   ++ "Score at full time " ++ py_format (home_team m) ++ ": " ++ py_format (ft_h_score m)
   ++ ", " ++ py_format (away_team m) ++ ": " ++ py_format (ft_a_score m) ++ nl ++ nl.

(** [Preprocessor.get_team_llm_prompt] *)
Definition get_team_llm_prompt (game_stats : list StatRow) (match_dict : value)
  : result string :=
  m <- read_metadata match_dict ;;
  let prompt := header in
  let pivot_df := pivot_table game_stats in
  prompt <- for_each row_step (iterrows pivot_df) prompt ;;
  let prompt := prompt ++ metadata_section m in
  let prompt := prompt ++ closing_instruction in
  ret prompt.

End Builder.

(** *** The builder as the specification words it *)

(** The value of a statistic group for a side and a period: the first one
    present among the rows of that group and period. *)
Definition value_at (rows : list StatRow) (i : gkey) (s : side) (p : string) : cell :=
  first_valid (map (side_of s) (filter (fun r => gkey3_eqb (keys_of r) (i, p)) rows)).

(** The clause of one period: both sides, the one present, or nothing. *)
Definition period_clause (p : string) (h a : cell) : string :=
  match h, a with
  | Some x, Some y => p ++ ": Home " ++ x ++ ", Away " ++ y ++ "; "
  | Some x, None => p ++ ": Home " ++ x ++ "; "
  | None, Some y => p ++ ": Away " ++ y ++ "; "
  | None, None => ""
  end.

(** The text of one statistic group: full match, first half, second half. *)
Definition group_text (rows : list StatRow) (i : gkey) : string :=
  fst i ++ ": "
  ++ period_clause "ALL" (value_at rows i Home "ALL") (value_at rows i Away "ALL")
  ++ period_clause "1ST" (value_at rows i Home "1ST") (value_at rows i Away "1ST")
  ++ period_clause "2ND" (value_at rows i Home "2ND") (value_at rows i Away "2ND")
  ++ nl ++ nl.

Fixpoint join (texts : list string) : string :=
  match texts with
  | [] => ""
  | t :: texts' => t ++ join texts'
  end.

(** The statistic groups that have a value, by key then category. *)
Definition stat_groups (rows : list StatRow) : list gkey :=
  sort_unique cmp_gkey
    (map (fun r => fst (keys_of r))
         (filter (fun r => notna (home r) || notna (away r)) rows)).

(** The statistics section: the groups one after the other. *)
Definition stats_section (rows : list StatRow) : string :=
  join (map (group_text rows) (stat_groups rows)).

(** The whole prompt: statistics, match information, instruction. *)
Definition expected_prompt (format_other : value -> string)
    (rows : list StatRow) (m : Metadata) : string :=
  header ++ stats_section rows ++ metadata_section format_other m ++ closing_instruction.

(** Some row gives side [fst c] a value in period [snd c]. *)
Definition has_value (rows : list StatRow) (c : label) : bool :=
  existsb (fun r => String.eqb (period r) (snd c) && notna (side_of (fst c) r)) rows.

Definition six_labels : list label :=
  [(Home, "ALL"); (Away, "ALL"); (Home, "1ST"); (Away, "1ST");
   (Home, "2ND"); (Away, "2ND")].

(** The pivot has every column the loop reads, or no row at all. *)
Definition readable (rows : list StatRow) : bool :=
  match stat_groups rows with
  | [] => true
  | _ :: _ => forallb (has_value rows) six_labels
  end.


(** *** The end-to-end scenario *)

Definition possession : StatRow :=
  {| key := "Possession"; group := "General"; period := "ALL";
     home := Some "60"; away := Some "40" |}.

Definition scenario_dict (h_manager a_manager stadium : value) : value :=
  VDict [("tournament", VDict [("name", VStr "Premier League")]);
         ("season", VDict [("year", VInt 2024)]);
         ("roundInfo", VDict [("round", VInt 10)]);
         ("homeTeam", VDict [("name", VStr "Liverpool");
                             ("manager", VDict [("name", h_manager)])]);
         ("awayTeam", VDict [("name", VStr "Man Utd");
                             ("manager", VDict [("name", a_manager)])]);
         ("venue", VDict [("stadium", VDict [("name", stadium)])]);
         ("homeScore", VDict [("period1", VInt 1); ("current", VInt 2)]);
         ("awayScore", VDict [("period1", VInt 0); ("current", VInt 1)])].

(** The same record written as three rows, the two halves without values. *)
Definition possession_three_rows : list StatRow :=
  [possession;
   mkStat "Possession" "General" "1ST" None None;
   mkStat "Possession" "General" "2ND" None None].

Definition scenario_meta (h_manager a_manager stadium : value) : Metadata :=
  {| comp := VStr "Premier League"; season := VInt 2024; gw := VInt 10;
     home_team := VStr "Liverpool"; h_manager := h_manager;
     away_team := VStr "Man Utd"; a_manager := a_manager;
     stadium := stadium;
     ht_h_score := VInt 1; ft_h_score := VInt 2;
     ht_a_score := VInt 0; ft_a_score := VInt 1 |}.

(** A table in which every side has a value in every period, though not
    every group has. *)
Definition sample_rows : list StatRow :=
  [possession;
   mkStat "Possession" "General" "1ST" (Some "55") None;
   mkStat "Shots" "Attack" "1ST" None (Some "3");
   mkStat "Shots" "Attack" "2ND" (Some "7") (Some "3")].

(** The same table as the provider might deliver it another day. *)
Definition sample_rows_shuffled : list StatRow :=
  [mkStat "Shots" "Attack" "2ND" (Some "7") (Some "3");
   possession;
   mkStat "Shots" "Attack" "1ST" None (Some "3");
   mkStat "Possession" "General" "1ST" (Some "55") None].

End Prompt.

(** ** More of pandas: column masks, assignment, [apply] *)

Module FrameOps.
Import Frame.

(** [columns.duplicated()]: a name is marked when it occurred before. *)
Fixpoint duplicated_from (seen names : list string) : list bool :=
  match names with
  | [] => []
  | n :: names' => mem_string n seen :: duplicated_from (n :: seen) names'
  end.

Definition duplicated (names : list string) : list bool := duplicated_from [] names.

(** [df.loc[:, mask].copy()] *)
Definition loc_columns (df : DataFrame) (mask : list bool) : DataFrame :=
  {| index := index df; columns := select mask (columns df) |}.

Fixpoint set_column (cols : list (string * list value)) (name : string)
    (c : list value) : list (string * list value) :=
  match cols with
  | [] => [(name, c)]
  | (n, c0) :: cols' =>
      if String.eqb n name then (n, c) :: cols'
      else (n, c0) :: set_column cols' name c
  end.

(** [df[name] = series], the series carrying the index of [df]: the column
    is replaced where it stands, or appended. *)
Definition setitem (df : DataFrame) (name : string) (c : list value) : DataFrame :=
  {| index := index df; columns := set_column (columns df) name c |}.

(** [series.apply(f)]: cell by cell, the first exception ends it. *)
Fixpoint apply (f : value -> result value) (s : list value) : result (list value) :=
  match s with
  | [] => Return []
  | v :: s' =>
      x <- f v ;;
      xs <- apply f s' ;;
      ret (x :: xs)
  end.

(** The column names after [try: df.drop(labels, axis=1, inplace=True)
    except: pass]. *)
Definition pruned_names (names labels : list string) : list string :=
  if forallb (fun l => mem_string l names) labels
  then filter (fun n => negb (mem_string n labels)) names
  else names.

End FrameOps.

(** ** Scraper: the tables *)

Module ScraperTables.
Import Frame FrameOps Scraper.

Section ScraperTables.

Context {World : Type}.
Context {Sofascore Understat Momentum : Type}.
Variable scrape_player_match_stats :
  Sofascore -> string -> World -> result DataFrame * World.
Variable scrape_match_momentum :
  Sofascore -> string -> World -> result Momentum * World.
Variable scrape_team_match_stats :
  Sofascore -> string -> World -> result (list Pivot.StatRow) * World.

Definition remove_duplicate_columns (stats_df : DataFrame) : DataFrame :=
  loc_columns stats_df (map negb (duplicated (column_names stats_df))).

(** [Scraper.get_player_stats] *)
Definition get_player_stats (self : Scraper (Sofascore := Sofascore) (Understat := Understat))
  : World -> result DataFrame * World :=
  fun w =>
    match scrape_player_match_stats (ss self) (url self) w with
    | (Return stats_df, w') => (Return (remove_duplicate_columns stats_df), w')
    | (Raise e, w') => (Raise e, w')
    end.

(** [Scraper.get_momentum] *)
Definition get_momentum (self : Scraper (Sofascore := Sofascore) (Understat := Understat))
  : World -> result Momentum * World :=
  scrape_match_momentum (ss self) (url self).

(** [Scraper.get_team_stats] *)
Definition get_team_stats (self : Scraper (Sofascore := Sofascore) (Understat := Understat))
  : World -> result (list Pivot.StatRow) * World :=
  scrape_team_match_stats (ss self) (url self).

End ScraperTables.

(** A provider answer with a repeated column. *)
Definition repeated_columns : DataFrame :=
  {| index := [0; 1]%Z;
     columns := [("name", [VStr "Alisson"; VStr "Virgil"]);
                 ("position", [VStr "G"; VStr "D"]);
                 ("name", [VStr "Becker"; VStr "van Dijk"])] |}.

End ScraperTables.

(** ** Preprocessor: the general player statistics *)

Module GeneralStats.
Import Frame FrameOps Extractors.

Definition irrelevant_columns : list string :=
  ["firstName"; "lastName"; "userCount"; "marketValueCurrency";
   "dateOfBirthTimestamp"; "fieldTranslations"; "jerseyNumber"].

Section GeneralStats.

Variable json_decode : string -> option value.
Variable float_of_string : string -> option spec_float.

(** [Preprocessor.general_stats_preprocess].  The first drop is in place
    and has no handler; the two later ones rebind [df]. *)
Definition general_stats_preprocess (df : DataFrame) : result DataFrame :=
  df <- drop_columns df irrelevant_columns ;;
  country <- getitem df "country" ;;
  country_name <- apply extract_country_name country ;;
  let df := setitem df "country_name" country_name in
  df <- drop_columns df ["country"] ;;
  ratingVersions <- getitem df "ratingVersions" ;;
  match_rating <- apply (extract_rating json_decode float_of_string) ratingVersions ;;
  let df := setitem df "match_rating" match_rating in
  df <- drop_columns df ["ratingVersions"] ;;
  ret df.

End GeneralStats.

Definition is_rating (v : value) : bool :=
  match v with VFloat _ | VNone => true | _ => false end.

(** The names the preprocessing removes. *)
Definition raw_columns : list string :=
  (irrelevant_columns ++ ["country"; "ratingVersions"])%list.

Definition hides_raw_columns (df : DataFrame) : Prop :=
  forall name, In name raw_columns -> has_column df name = false.

(** Two players as the provider delivers them. *)
Definition raw_players : DataFrame :=
  {| index := [0; 1]%Z;
     columns :=
       [("name", [VStr "Alisson"; VStr "Virgil"]);
        ("firstName", [VStr ""; VStr ""]);
        ("lastName", [VStr ""; VStr ""]);
        ("userCount", [VInt 1; VInt 2]);
        ("marketValueCurrency", [VStr "EUR"; VStr "EUR"]);
        ("dateOfBirthTimestamp", [VInt 0; VInt 0]);
        ("fieldTranslations", [VNone; VNone]);
        ("jerseyNumber", [VStr "1"; VStr "4"]);
        ("position", [VStr "G"; VStr "D"]);
        ("country", [VDict [("name", VStr "Brazil")]; VDict []]);
        ("ratingVersions",
         [VDict [("original", VFloat (S754_finite false 7881299347898368 (-50)))];
          VFloat S754_nan])] |}.

(** What the preprocessing makes of them. *)
Definition shaped_players : DataFrame :=
  {| index := [0; 1]%Z;
     columns :=
       [("name", [VStr "Alisson"; VStr "Virgil"]);
        ("position", [VStr "G"; VStr "D"]);
        ("country_name", [VStr "Brazil"; VNone]);
        ("match_rating",
         [VFloat (S754_finite false 7881299347898368 (-50)); VFloat S754_nan])] |}.

(** The same players, the second without a country. *)
Definition raw_players_no_country : DataFrame :=
  setitem raw_players "country" [VDict [("name", VStr "Brazil")]; VFloat S754_nan].

(** The same players, the first rating as JSON text. *)
Definition raw_players_text_rating : DataFrame :=
  setitem raw_players "ratingVersions" [VStr "7.0"; VFloat S754_nan].

End GeneralStats.

(** ** Streamlit *)

Module Streamlit.
Import Frame LLM.

(** What reaches the page. *)
Inductive shown (Momentum : Type) : Type :=
| Header (s : string)
| Table (df : DataFrame)
| StatTable (rows : list Pivot.StatRow)
| MomentumTable (m : Momentum)
| Written (v : value).
Arguments Header {Momentum} s.
Arguments Table {Momentum} df.
Arguments StatTable {Momentum} rows.
Arguments MomentumTable {Momentum} m.
Arguments Written {Momentum} v.

Definition OUTFIELD_POSITIONS : list string := ["D"; "M"; "F"].
Definition POSITION_NAMES : list (string * string) :=
  [("D", "Defenders"); ("M", "Midfielders"); ("F", "Forwards")].

Fixpoint names_get (d : list (string * string)) (k : string) : result string :=
  match d with
  | [] => Raise KeyError
  | (k', v) :: d' => if String.eqb k' k then Return v else names_get d' k
  end.

Section Streamlit.

(** Everything outside the page: the network and the console. *)
Context {Ext : Type} {Momentum : Type}.
Variable print : value -> Ext -> Ext.

(** The world of a run: the outside and the page so far. *)
Definition Page : Type := (Ext * list (shown Momentum))%type.

#[local] Instance Monad_Page : Monad (M (World := Page)) :=
  {| ret := fun A (a : A) w => (Return a, w); bind := @M_bind Page |}.

Definition show (ev : shown Momentum) : M (World := Page) unit :=
  fun w => (Return tt, (fst w, (snd w ++ [ev])%list)).

Definition console (v : value) : M (World := Page) unit :=
  fun w => (Return tt, (print v (fst w), snd w)).

Fixpoint for_each_M {A : Type} (body : A -> M (World := Page) unit) (xs : list A)
  : M (World := Page) unit :=
  match xs with
  | [] => ret tt
  | x :: xs' => body x ;; for_each_M body xs'
  end.

(** [Streamlit.upload_stats] *)
Definition upload_stats (gk_stats o_stats : DataFrame) : M (World := Page) unit :=
  show (Header "Goalkeepers:") ;;
  show (Table gk_stats) ;;
  for_each_M
    (fun pos =>
       position <- lift (getitem o_stats "position") ;;
       let pos_df := loc o_stats (series_eq position pos) in
       title <- lift (names_get POSITION_NAMES pos) ;;
       show (Header title) ;;
       show (Table pos_df))
    OUTFIELD_POSITIONS.

(** [Streamlit.upload_momentum] *)
Definition upload_momentum (momentum_df : Momentum) : M (World := Page) unit :=
  console (VStr "momentum") ;;
  show (Header "Momentum:") ;;
  show (MomentumTable momentum_df).

(** [Streamlit.upload_team_stats] *)
Definition upload_team_stats (team_df : list Pivot.StatRow) : M (World := Page) unit :=
  console (VStr "team stats") ;;
  show (Header "Team Stats:") ;;
  show (StatTable team_df).

(** [Streamlit.upload_match_stats] *)
Definition upload_match_stats (match_dict : value) : M (World := Page) unit :=
  console (VStr "match_stats") ;;
  show (Header "Match Dict:") ;;
  show (Written match_dict).

(** [Streamlit.upload_match_report] *)
Definition upload_match_report (prompt : string) (output : value)
  : M (World := Page) unit :=
  console (VStr "match report") ;;
  show (Header "Original Message:") ;;
  show (Written (VStr prompt)) ;;
  show (Header "Generated Report") ;;
  show (Written output).

(** [Streamlit.upload_prompt] *)
Definition upload_prompt (prompt : string) : M (World := Page) unit :=
  console (VStr "prompt") ;;
  show (Header "Original Message:") ;;
  show (Written (VStr prompt)).

(** [Streamlit.upload_understat] *)
Definition upload_understat (understat_df : value) : M (World := Page) unit :=
  show (Header "Understat DF") ;;
  show (Written understat_df).

(** The tables of player records among what is shown. *)
Fixpoint tables (evs : list (shown Momentum)) : list DataFrame :=
  match evs with
  | [] => []
  | Table df :: evs' => df :: tables evs'
  | _ :: evs' => tables evs'
  end.

End Streamlit.

End Streamlit.

(** ** Orchestrator *)

Module Orchestrator.
Import Frame LLM Streamlit.

Definition default_match_url : string :=
  "https://www.sofascore.com/football/match/liverpool-manchester-united/KU#id:12436920".

Section Orchestrator.

Context {Ext : Type} {Sofascore Understat Momentum : Type}.
Variable sfc_Sofascore : Sofascore.
Variable sfc_Understat : Understat.
(** The providers, the completion service and the console act on the
    outside only. *)
Variable scrape_player_match_stats :
  Sofascore -> string -> Ext -> result DataFrame * Ext.
Variable scrape_match_momentum :
  Sofascore -> string -> Ext -> result Momentum * Ext.
Variable scrape_team_match_stats :
  Sofascore -> string -> Ext -> result (list Pivot.StatRow) * Ext.
Variable get_match_dict : Sofascore -> string -> Ext -> result value * Ext.
Variable scrape_match : Understat -> string -> Ext -> result value * Ext.
Variable requests_post : request -> Ext -> result response * Ext.
Variable print : value -> Ext -> Ext.
Variable json_dumps : value -> string.
Variable json_decode : string -> option value.
Variable float_of_string : string -> option spec_float.
Variable str_exn : exn -> string.
Variable format_other : value -> string.
(** [os.getenv] *)
Variable getenv : string -> option string.

Definition outside {A : Type} (c : Ext -> result A * Ext)
  : M (World := Page (Momentum := Momentum)) A :=
  fun w => (fst (c (fst w)), (snd (c (fst w)), snd w)).

(** [Orchestrator.__init__]: the scraper it builds. *)
Definition init : Scraper.Scraper (Sofascore := Sofascore) (Understat := Understat) :=
  let url := match getenv "MATCH_URL" with
             | Some u => u
             | None => default_match_url
             end in
  Scraper.init sfc_Sofascore sfc_Understat url.

#[local] Existing Instance Monad_Page.

(** [Orchestrator.run] *)
Definition run (scraper : Scraper.Scraper (Sofascore := Sofascore) (Understat := Understat))
  : M (World := Page (Momentum := Momentum)) unit :=
  raw <- outside (ScraperTables.get_player_stats scrape_player_match_stats scraper) ;;
  player_stats_df <-
    lift (GeneralStats.general_stats_preprocess json_decode float_of_string raw) ;;
  momentum_df <- outside (ScraperTables.get_momentum scrape_match_momentum scraper) ;;
  team_stats_df <- outside (ScraperTables.get_team_stats scrape_team_match_stats scraper) ;;
  match_stats_dict <- outside (Scraper.get_match_stats get_match_dict scraper) ;;
  understat_df <- outside (Scraper.get_understat_match scrape_match scraper) ;;
  gk_stats <- lift (PositionFilter.preprocess_gk player_stats_df) ;;
  o_stats <- lift (PositionFilter.preprocess_outfield player_stats_df) ;;
  prompt <- lift (Prompt.get_team_llm_prompt format_other team_stats_df match_stats_dict) ;;
  llm_output <-
    general_match_report
      (fun r => outside (requests_post r))
      (fun v w => (print v (fst w), snd w))
      json_dumps json_decode str_exn prompt ;;
  upload_stats gk_stats o_stats ;;
  upload_momentum print momentum_df ;;
  upload_team_stats print team_stats_df ;;
  upload_match_report print prompt llm_output ;;
  upload_understat understat_df.

End Orchestrator.

End Orchestrator.

(** ** The first exchange with the completion service *)

Module FirstExchange.
Import LLM.

Section FirstExchange.

Context {World : Type}.
Variable requests_post : request -> World -> result response * World.
Variable json_dumps : value -> string.
Variable json_decode : string -> option value.

(** A computation that leaves an observation of the world as it was. *)
Definition keeps {S A : Type} (obs : World -> S) (c : M (World := World) A) : Prop :=
  forall w, obs (snd (c w)) = obs w.

(** What the first answer is worth: the ["response"] field of its JSON
    body when the status is 200, the error text otherwise. *)
Definition first_report (r : response) : result value :=
  if (status_code r =? 200)%Z then
    data <- json_loads json_decode (VStr (text r)) ;;
    subscript data "response"
  else Return (VStr (error_report (status_code r) (text r))).

(** The first post and what comes of its answer. *)
Definition first_exchange (prompt : string) (w : World) : result value * World :=
  match requests_post (the_request json_dumps prompt) w with
  | (Return r, w1) => (first_report r, w1)
  | (Raise e, w1) => (Raise e, w1)
  end.

End FirstExchange.

(** A service that answers every post with a report. *)
Definition obliging (r : request) (w : nat) : result response * nat :=
  (Return (mkResponse 200 "{response: Liverpool won.}"), S w).

(** A decoder that knows the answer of [obliging]. *)
Definition decode_report (s : string) : option value :=
  if String.eqb s "{response: Liverpool won.}"
  then Some (VDict [("response", VStr "Liverpool won.")])
  else None.

(** A service that answers with a report once and is down afterwards. *)
Definition flaky_success (r : request) (w : nat) : result response * nat :=
  match w with
  | O => (Return (mkResponse 200 "{response: Liverpool won.}"), S w)
  | S _ => (Return (mkResponse 503 "Service Unavailable"), S w)
  end.

(** A service that cannot be reached. *)
Definition unreachable (r : request) (w : nat) : result response * nat :=
  (Raise ConnectionError, S w).

End FirstExchange.

(** ** What a run presents *)

Module Presenting.
Import Frame LLM Streamlit FirstExchange.

(** A computation on the page either raises and leaves the page as it was,
    or returns and has added events that satisfy [P]. *)
Definition presents {Ext Momentum A : Type} (P : list (shown Momentum) -> Prop)
    (c : M (World := Page (Ext := Ext) (Momentum := Momentum)) A) : Prop :=
  forall w,
    (exists e w', c w = (Raise e, w') /\ snd w' = snd w)
    \/ (exists a w' evs, c w = (Return a, w') /\ snd w' = (snd w ++ evs)%list /\ P evs).

(** No table on the page has a raw column. *)
Definition no_raw_column {Momentum : Type} (evs : list (shown Momentum)) : Prop :=
  Forall GeneralStats.hides_raw_columns (tables evs).

(** A run against providers that answer at once: the player table is
    [players], the team statistics are [Prompt.sample_rows], the completion
    service is [obliging].  The outside counts the calls. *)
Definition demo_run (players : DataFrame)
  : M (World := Page (Ext := nat) (Momentum := unit)) unit :=
  Orchestrator.run
    (fun (_ : unit) _ w => (Return players, S w))
    (fun (_ : unit) _ w => (Return tt, S w))
    (fun (_ : unit) _ w => (Return Prompt.sample_rows, S w))
    (fun (_ : unit) _ w =>
       (Return (Prompt.scenario_dict (VStr "Slot") (VStr "Amorim") (VStr "Anfield")), S w))
    (fun (_ : unit) _ w => (Return VNone, S w))
    obliging (fun _ w => w) (fun _ => "{}") decode_report (fun _ => None)
    (fun _ => "error") (fun _ => "")
    (Scraper.init tt tt Orchestrator.default_match_url).

End Presenting.

(** ** The second exchange with the completion service *)

Module SecondExchange.
Import LLM.



End SecondExchange.

(** ** Tables with two rows for one key, group and period *)

Module Conflicting.
Import Pivot Prompt.



End Conflicting.

(** * Properties *)

(** ** Text *)

Lemma append_assoc (a b c : string) : (a ++ b) ++ c = a ++ (b ++ c).
Proof. induction a as [|x a IH]; simpl; [reflexivity | now rewrite IH]. Qed.

Lemma append_empty_r (a : string) : a ++ "" = a.
Proof. induction a as [|x a IH]; simpl; [reflexivity | now rewrite IH]. Qed.

(** ** The extractors *)

Module ExtractorFacts.
Import Extractors.

Section ExtractorFacts.

Variable json_decode : string -> option value.
Variable float_of_string : string -> option spec_float.

Local Abbreviation extract_rating := (extract_rating json_decode float_of_string).
Local Abbreviation py_float := (py_float float_of_string).

(** A float comes back as it is. *)
Lemma extract_rating_float (f : spec_float) :
  extract_rating (VFloat f) = Return (VFloat f).
Proof. reflexivity. Qed.

(** A mapping whose ["original"] field converts yields that float. *)
Lemma extract_rating_dict_ok (d : list (string * value)) (x : value) (f : spec_float) :
  dict_get d "original" = Some x ->
  py_float x = Return f ->
  extract_rating (VDict d) = Return (VFloat f).
Proof.
  intros Hget Hfloat. unfold Extractors.extract_rating. simpl.
  rewrite Hget. simpl. unfold result_bind. rewrite Hfloat. reflexivity.
Qed.

(** A mapping without the field, or with a field [float] rejects, reaches the
    [except] clause, whose class tuple cannot be evaluated. *)
Lemma extract_rating_dict_fails (d : list (string * value)) (e : exn) :
  (original <- subscript (VDict d) "original" ;; f <- py_float original ;; ret (VFloat f))
    = Raise e ->
  extract_rating (VDict d) = Raise AttributeError.
Proof.
  intros H. unfold Extractors.extract_rating.
  cbn [isinstance_float isinstance_str isinstance_dict].
  rewrite H. reflexivity.
Qed.

(** C1: on a string the rating normalizer raises instead of returning: the
    name [json] is the string itself, which has no [loads], and the class
    tuple of the handler fails on [json.JSONDecodeError] in the same way. *)
Theorem extract_rating_str_raises (s : string) :
  extract_rating (VStr s) = Raise AttributeError.
Proof. reflexivity. Qed.

(** C9: a whole-number rating given as an int is normalized to None. *)
Theorem extract_rating_int_none (n : Z) :
  extract_rating (VInt n) = Return VNone.
Proof. reflexivity. Qed.

(** The remaining inputs: None, booleans and lists give None as well. *)
Lemma extract_rating_other (v : value) :
  isinstance_float v = false -> isinstance_str v = false -> isinstance_dict v = false ->
  extract_rating v = Return VNone.
Proof.
  intros Hf Hs Hd. unfold Extractors.extract_rating. rewrite Hf, Hs, Hd. reflexivity.
Qed.

End ExtractorFacts.

(** The name is returned when the mapping has it. *)
Lemma extract_country_name_present (d : list (string * value)) (x : value) :
  dict_get d "name" = Some x -> extract_country_name (VDict d) = Return x.
Proof. intros H. unfold extract_country_name. simpl. rewrite H. reflexivity. Qed.

(** A mapping without the field gives None. *)
Lemma extract_country_name_absent (d : list (string * value)) :
  dict_get d "name" = None -> extract_country_name (VDict d) = Return VNone.
Proof. intros H. unfold extract_country_name. simpl. rewrite H. reflexivity. Qed.

(** Anything that is not a mapping raises: the handler lists
    [json.JSONDecodeError] and [KeyError] only. *)
Lemma extract_country_name_not_mapping (v : value) :
  isinstance_dict v = false -> extract_country_name v = Raise TypeError.
Proof. destruct v; intros H; try discriminate H; reflexivity. Qed.

(** C3: on None the country name extractor raises [TypeError]. *)
Theorem extract_country_name_none_raises :
  extract_country_name VNone = Raise TypeError.
Proof. reflexivity. Qed.

End ExtractorFacts.

(** ** The position filter *)

Module PositionFilterFacts.
Import Frame PositionFilter.

Lemma has_column_find (df : DataFrame) (name : string) :
  has_column df name = true -> exists c, find_column (columns df) name = Some c.
Proof.
  unfold has_column, column_names. induction (columns df) as [|[n c] cols IH]; simpl.
  - discriminate.
  - rewrite String.eqb_sym. destruct (String.eqb n name); [eauto | exact IH].
Qed.

Lemma find_column_map_snd (f : list value -> list value) cols name :
  find_column (map (fun nc => (fst nc, f (snd nc))) cols) name
  = option_map f (find_column cols name).
Proof.
  induction cols as [|[n c] cols IH]; simpl; [reflexivity|].
  destruct (String.eqb n name); [reflexivity | exact IH].
Qed.

Lemma find_column_filter (labels : list string) cols name :
  mem_string name labels = false ->
  find_column (filter (fun nc => negb (mem_string (fst nc) labels)) cols) name
  = find_column cols name.
Proof.
  intros Hname. induction cols as [|[n c] cols IH]; simpl; [reflexivity|].
  destruct (String.eqb n name) eqn:E.
  - apply String.eqb_eq in E. subst n. rewrite Hname. simpl.
    rewrite String.eqb_refl. reflexivity.
  - destruct (negb (mem_string n labels)); simpl; [rewrite E|]; exact IH.
Qed.

(** What is left after a [try: df.drop(labels, axis=1, inplace=True)
    except: pass]: the rows are the same and a column outside the list is
    still there. *)
Lemma pruned_frame (df : DataFrame) (labels : list string) (name : string) :
  mem_string name labels = false ->
  exists df', try_except_all (drop_columns df labels) (Return df) = Return df'
              /\ index df' = index df
              /\ find_column (columns df') name = find_column (columns df) name.
Proof.
  intros Hname. unfold drop_columns.
  destruct (forallb _ labels); simpl.
  - eexists. split; [reflexivity|]. simpl. split; [reflexivity|].
    apply find_column_filter, Hname.
  - exists df. auto.
Qed.

Lemma select_incl {A : Type} (mask : list bool) (xs : list A) (x : A) :
  In x (select mask xs) -> In x xs.
Proof.
  revert xs. induction mask as [|b mask IH]; intros [|y xs]; simpl; try tauto.
  destruct b; simpl; intros H; [destruct H as [H|H]|]; auto.
Qed.

(** When a listed column is missing the drop raises before it removes
    anything, so the frame keeps all its columns. *)
Lemma prune_skipped_as_a_whole (df : DataFrame) (labels : list string) :
  forallb (fun l => mem_string l (column_names df)) labels = false ->
  try_except_all (drop_columns df labels) (Return df) = Return df.
Proof. intros H. unfold drop_columns. rewrite H. reflexivity. Qed.

(** The row drop of [preprocess_outfield] names rows of the frame itself, so
    it cannot fail. *)
Lemma drop_own_rows (df : DataFrame) (mask : list bool) :
  exists dropped, drop_rows df (index (loc df mask)) = Return dropped.
Proof.
  unfold drop_rows.
  assert (H : forallb (fun l => mem_label l (index df)) (index (loc df mask)) = true).
  { apply forallb_forall. intros l Hl. simpl in Hl. apply select_incl in Hl.
    unfold mem_label. apply existsb_exists. exists l. split; [exact Hl|apply Z.eqb_refl]. }
  rewrite H. eauto.
Qed.

(** The goalkeeper subset holds the rows whose position is ["G"]. *)
Lemma preprocess_gk_rows (df : DataFrame) (position : list value) :
  find_column (columns df) "position" = Some position ->
  exists gk, preprocess_gk df = Return gk
             /\ index gk = select (series_eq position "G") (index df).
Proof.
  intros Hpos. unfold preprocess_gk, getitem. rewrite Hpos. simpl.
  destruct (pruned_frame (loc df (series_eq position "G")) gk_drop_list "position"
              eq_refl) as (gk & Hgk & Hidx & _).
  rewrite Hgk. simpl. exists gk. split; [reflexivity | exact Hidx].
Qed.

(** The outfield subset holds every row of the input. *)
Lemma preprocess_outfield_rows (df : DataFrame) :
  has_column df "position" = true ->
  exists out, preprocess_outfield df = Return out /\ index out = index df.
Proof.
  intros Hpos. apply has_column_find in Hpos. destruct Hpos as [position Hpos].
  unfold preprocess_outfield.
  destruct (pruned_frame df outfield_drop_list "position" eq_refl)
    as (df' & Hdf' & Hidx & Hcol).
  rewrite Hdf'. cbn [bind Monad_result result_bind].
  unfold getattr. rewrite Hcol, Hpos. cbn [result_bind].
  destruct (drop_own_rows df' (series_eq position "GK")) as [dropped Hd].
  rewrite Hd. cbn. eauto.
Qed.

(** C2: the goalkeeper of [two_players] is in the goalkeeper subset and in
    the outfield subset: the two subsets are not disjoint. *)
Theorem goalkeeper_in_both_subsets :
  exists gk out,
    preprocess_gk two_players = Return gk
    /\ preprocess_outfield two_players = Return out
    /\ in_subset 0 gk /\ in_subset 0 out.
Proof.
  do 2 eexists. split; [reflexivity|]. split; [reflexivity|].
  split; unfold in_subset; simpl; auto.
Qed.

(** C8: with a position column, both shaping steps return whichever of the
    columns of their drop lists the data lacks. *)
Theorem position_filter_tolerates_missing_columns (df : DataFrame) :
  has_column df "position" = true ->
  (exists gk, preprocess_gk df = Return gk)
  /\ (exists out, preprocess_outfield df = Return out).
Proof.
  intros Hpos. split.
  - destruct (has_column_find _ _ Hpos) as [position Hfind].
    destruct (preprocess_gk_rows df position Hfind) as (gk & Hgk & _). eauto.
  - destruct (preprocess_outfield_rows df Hpos) as (out & Hout & _). eauto.
Qed.

Lemma position_filter_tolerates_missing_columns_witness :
  has_column two_players "position" = true
  /\ (exists gk, preprocess_gk two_players = Return gk)
  /\ (exists out, preprocess_outfield two_players = Return out).
Proof.
  split; [reflexivity|].
  apply (position_filter_tolerates_missing_columns two_players). reflexivity.
Defined.

End PositionFilterFacts.

(** ** The scraper *)

Module ScraperFacts.
Import Scraper.

Section ScraperFacts.

Context {World : Type}.
Context {Sofascore Understat : Type}.
Variable sfc_Sofascore : Sofascore.
Variable sfc_Understat : Understat.
Variable scrape_match : Understat -> string -> World -> result value * World.

Local Abbreviation init := (init sfc_Sofascore sfc_Understat).
Local Abbreviation get_understat_match :=
  (get_understat_match (Sofascore := Sofascore) scrape_match).

(** C10: two scrapers built for different matches fetch the same fixed match
    from the secondary provider. *)
Theorem understat_match_ignores_url (url1 url2 : string) (w : World) :
  get_understat_match (init url1) w = get_understat_match (init url2) w
  /\ get_understat_match (init url1) w
     = scrape_match sfc_Understat "https://understat.com/match/26631" w.
Proof. split; reflexivity. Qed.

End ScraperFacts.

End ScraperFacts.

(** ** The report generator *)

Module LLMFacts.
Import LLM.

Section LLMFacts.

Context {World : Type}.
Variable requests_post : request -> World -> result response * World.
Variable print : value -> World -> World.
Variable json_dumps : value -> string.
Variable json_decode : string -> option value.
Variable str_exn : exn -> string.

Local Abbreviation general_match_report :=
  (general_match_report requests_post print json_dumps json_decode str_exn).
Local Abbreviation the_request := (the_request json_dumps).



End LLMFacts.


(** The fallback also holds when the service stays down, and when the
    second post fails inside the HTTP client. *)
Example report_fallback_service_down :
  fst (general_match_report maintenance (fun _ w => w) (fun _ => "{}") (fun _ => None)
         (fun _ => "error") "Match Stats Summary" 0%nat)
  = Return (VStr (error_report 503 "Service Unavailable")).
Proof. reflexivity. Qed.


(** A second answer that is a success but not a JSON object escapes the
    handler, which only covers the exceptions of the HTTP client. *)
Example second_answer_not_an_object :
  fst (general_match_report flaky (fun _ w => w) (fun _ => "{}")
         (fun _ => Some (VList [])) (fun _ => "error") "Match Stats Summary" 0%nat)
  = Raise AttributeError.
Proof. reflexivity. Qed.

End LLMFacts.

(** ** Sorted distinct labels *)

Module LabelFacts.
Import Labels.

#[export] Instance TotalCmp_string : TotalCmp String.compare.
Proof.
  split.
  - exact String_as_OT.cmp_eq.
  - intros a b. apply String.compare_antisym.
  - intros a b c Hab Hbc. apply String_as_OT.cmp_lt.
    apply String_as_OT.cmp_lt in Hab, Hbc.
    eapply String_as_OT.lt_trans; eassumption.
Qed.

Section Order.

Context {K : Type} (cmp : K -> K -> comparison) `{!TotalCmp cmp}.

Lemma cmp_refl (a : K) : cmp a a = Eq.
Proof. now apply cmp_eq. Qed.

Lemma cmp_gt_lt (a b : K) : cmp a b = Gt -> cmp b a = Lt.
Proof. intros H. rewrite (cmp_antisym a b), H. reflexivity. Qed.

Lemma lt_irrefl (a : K) : ~ lt cmp a a.
Proof. unfold lt. rewrite cmp_refl. discriminate. Qed.

Lemma insert_In (x y : K) (l : list K) :
  In y (insert cmp x l) <-> y = x \/ In y l.
Proof.
  induction l as [|z l IH]; simpl.
  - intuition.
  - destruct (cmp x z) eqn:E; simpl.
    + apply cmp_eq in E. subst z. intuition.
    + intuition.
    + rewrite IH. intuition.
Qed.

Lemma sort_unique_In (y : K) (l : list K) :
  In y (sort_unique cmp l) <-> In y l.
Proof.
  induction l as [|x l IH]; simpl; [tauto|].
  rewrite insert_In, IH. intuition.
Qed.

Lemma insert_sorted (x : K) (l : list K) :
  StronglySorted (lt cmp) l -> StronglySorted (lt cmp) (insert cmp x l).
Proof.
  induction 1 as [|z l Hs IH Hz]; simpl.
  - repeat constructor.
  - destruct (cmp x z) eqn:E.
    + now constructor.
    + constructor; [now constructor|].
      constructor; [exact E|].
      eapply Forall_impl; [|exact Hz]. intros a Ha. exact (cmp_trans _ _ _ E Ha).
    + constructor; [exact IH|].
      apply Forall_forall. intros a Ha. apply insert_In in Ha.
      destruct Ha as [->|Ha].
      * now apply cmp_gt_lt.
      * rewrite Forall_forall in Hz. now apply Hz.
Qed.

Lemma sort_unique_sorted (l : list K) : StronglySorted (lt cmp) (sort_unique cmp l).
Proof.
  induction l as [|x l IH]; simpl; [constructor | now apply insert_sorted].
Qed.

(** Two increasing lists with the same elements are the same list. *)
Lemma sorted_ext (l1 l2 : list K) :
  StronglySorted (lt cmp) l1 -> StronglySorted (lt cmp) l2 ->
  (forall x, In x l1 <-> In x l2) -> l1 = l2.
Proof.
  intros H1. revert l2. induction H1 as [|a l1 Hs1 IH Ha]; intros l2 H2 Hin.
  - destruct l2 as [|b l2]; [reflexivity|].
    exfalso. apply (proj2 (Hin b)). now left.
  - destruct H2 as [|b l2 Hs2 Hb].
    { exfalso. apply (proj1 (Hin a)). now left. }
    rewrite Forall_forall in Ha, Hb.
    assert (Hab : a = b).
    { destruct (proj1 (Hin a) (or_introl eq_refl)) as [E|E]; [now symmetry|].
      destruct (proj2 (Hin b) (or_introl eq_refl)) as [E'|E']; [exact E'|].
      exfalso. apply (lt_irrefl a). exact (cmp_trans _ _ _ (Ha _ E') (Hb _ E)). }
    subst b. f_equal. apply IH; [exact Hs2|].
    intros x. split; intros Hx.
    + destruct (proj1 (Hin x) (or_intror Hx)) as [E|E]; [|exact E].
      subst x. exfalso. exact (lt_irrefl a (Ha _ Hx)).
    + destruct (proj2 (Hin x) (or_intror Hx)) as [E|E]; [|exact E].
      subst x. exfalso. exact (lt_irrefl a (Hb _ Hx)).
Qed.

(** The sorted distinct elements depend on the elements only, not on their
    order or multiplicity. *)
Lemma sort_unique_ext (l1 l2 : list K) :
  (forall x, In x l1 <-> In x l2) -> sort_unique cmp l1 = sort_unique cmp l2.
Proof.
  intros H. apply sorted_ext; try apply sort_unique_sorted.
  intros x. rewrite !sort_unique_In. apply H.
Qed.

End Order.

#[export] Instance TotalCmp_lex {A B : Type} (cmpA : A -> A -> comparison)
    (cmpB : B -> B -> comparison) `{!TotalCmp cmpA} `{!TotalCmp cmpB} :
  TotalCmp (cmp_lex cmpA cmpB).
Proof.
  split.
  - intros [a b] [a' b']. unfold cmp_lex. simpl.
    destruct (cmpA a a') eqn:E.
    + apply cmp_eq in E. subst a'. rewrite cmp_eq. split; congruence.
    + split; [discriminate|]. intros H. inversion H. subst.
      rewrite (cmp_refl cmpA) in E. discriminate.
    + split; [discriminate|]. intros H. inversion H. subst.
      rewrite (cmp_refl cmpA) in E. discriminate.
  - intros [a b] [a' b']. unfold cmp_lex. simpl.
    rewrite (cmp_antisym a a'). destruct (cmpA a a'); simpl; auto using cmp_antisym.
  - intros [a b] [a' b'] [a'' b'']. unfold cmp_lex. simpl.
    destruct (cmpA a a') eqn:E1; try discriminate;
      destruct (cmpA a' a'') eqn:E2; try discriminate; intros H1 H2.
    + apply cmp_eq in E1, E2. subst. rewrite (cmp_refl cmpA).
      exact (cmp_trans _ _ _ H1 H2).
    + apply cmp_eq in E1. subst. now rewrite E2.
    + apply cmp_eq in E2. subst. now rewrite E1.
    + now rewrite (cmp_trans _ _ _ E1 E2).
Qed.

End LabelFacts.

(** ** The pivot *)

Module PivotFacts.
Import Labels LabelFacts Pivot Prompt.

Lemma gkey_eqb_eq (a b : gkey) : gkey_eqb a b = true <-> a = b.
Proof.
  destruct a as [k g], b as [k' g']. unfold gkey_eqb. simpl.
  rewrite andb_true_iff, !String.eqb_eq. split; [intros [-> ->] | intros H; inversion H]; auto.
Qed.

Lemma gkey3_eqb_eq (a b : gkey3) : gkey3_eqb a b = true <-> a = b.
Proof.
  destruct a as [i p], b as [i' p']. unfold gkey3_eqb. simpl.
  rewrite andb_true_iff, gkey_eqb_eq, String.eqb_eq.
  split; [intros [-> ->] | intros H; inversion H]; auto.
Qed.

Lemma label_eqb_eq (a b : label) : label_eqb a b = true <-> a = b.
Proof.
  destruct a as [s p], b as [s' p']. unfold label_eqb. simpl.
  rewrite andb_true_iff, String.eqb_eq.
  destruct s, s'; simpl; split; try (intros [? ?]); try (intros H; inversion H);
    subst; auto; discriminate.
Qed.

Lemma first_valid_notna (cs : list cell) :
  notna (first_valid cs) = existsb notna cs.
Proof. induction cs as [|[v|] cs IH]; simpl; auto. Qed.


(** The rows of one group and period. *)
Lemma member_iff (rows : list StatRow) (t : gkey3) (r : StatRow) :
  In r (filter (fun r => gkey3_eqb (keys_of r) t) rows) <-> In r rows /\ keys_of r = t.
Proof. rewrite filter_In, gkey3_eqb_eq. tauto. Qed.

Lemma value_at_member (rows : list StatRow) (i : gkey) (s : side) (p : string) :
  notna (value_at rows i s p) = true <->
  exists r, In r rows /\ keys_of r = (i, p) /\ notna (side_of s r) = true.
Proof.
  unfold value_at. rewrite first_valid_notna, existsb_exists. split.
  - intros (c & Hc & Hn). apply in_map_iff in Hc. destruct Hc as (r & <- & Hr).
    apply member_iff in Hr. exists r. tauto.
  - intros (r & Hr & Hk & Hn). exists (side_of s r). split; [|exact Hn].
    apply in_map. apply member_iff. tauto.
Qed.

(** The aggregated rows that survive [dropna]: the groups and periods with a
    value on one side at least. *)
Lemma in_agged (rows : list StatRow) (a : AggRow) :
  In a (dropna_rows (groupby_first rows)) <->
  exists t, a = mkAgg t (value_at rows (fst t) Home (snd t))
                        (value_at rows (fst t) Away (snd t))
            /\ (notna (value_at rows (fst t) Home (snd t))
                || notna (value_at rows (fst t) Away (snd t))) = true.
Proof.
  unfold dropna_rows, groupby_first. rewrite filter_In, in_map_iff. split.
  - intros ((t & <- & _) & Hn). destruct t as [i p]. exists (i, p). split; [reflexivity|exact Hn].
  - intros ([i p] & -> & Hn). split; [|exact Hn]. exists (i, p). split; [reflexivity|].
    apply sort_unique_In; [typeclasses eauto|]. apply in_map_iff.
    simpl in Hn. apply orb_true_iff in Hn.
    destruct Hn as [Hn|Hn]; apply value_at_member in Hn;
      destruct Hn as (r & Hr & Hk & _); exists r; auto.
Qed.

(** A cell of the unstacked frame is the value of its group, side and
    period. *)
Lemma agg_lookup_spec (rows : list StatRow) (i : gkey) (s : side) (p : string) :
  agg_lookup (dropna_rows (groupby_first rows)) i (s, p) = value_at rows i s p.
Proof.
  unfold agg_lookup. simpl.
  destruct (find _ _) as [a|] eqn:F.
  - apply find_some in F. destruct F as [Ha Hk].
    apply in_agged in Ha. destruct Ha as (t & -> & _). simpl in Hk.
    apply gkey3_eqb_eq in Hk. subst t. destruct s; reflexivity.
  - destruct (value_at rows i s p) as [v|] eqn:V; [|reflexivity]. exfalso.
    assert (Hin : In (mkAgg (i, p) (value_at rows i Home p) (value_at rows i Away p))
                     (dropna_rows (groupby_first rows))).
    { apply in_agged. exists (i, p). split; [reflexivity|]. simpl.
      destruct s; rewrite V; simpl; auto using orb_true_r. }
    apply (find_none _ _ F) in Hin. simpl in Hin.
    assert (E : gkey3_eqb (i, p) (i, p) = true) by now apply gkey3_eqb_eq.
    congruence.
Qed.

(** The rows of the pivot are the groups that have a value. *)
Lemma pivot_index (rows : list StatRow) :
  pv_index (pivot_table rows) = stat_groups rows.
Proof.
  unfold pivot_table, stat_groups. simpl.
  apply sort_unique_ext; [typeclasses eauto|]. intros i.
  rewrite !in_map_iff. split.
  - intros (a & <- & Ha). apply in_agged in Ha. destruct Ha as ([j p] & -> & Hn).
    cbn [fst snd agg_keys] in *. apply orb_true_iff in Hn.
    destruct Hn as [Hn|Hn]; apply value_at_member in Hn;
      destruct Hn as (r & Hr & Hk & Hv); exists r;
      (split; [now inversion Hk|]);
      apply filter_In; (split; [exact Hr|]); cbn [side_of] in Hv; rewrite Hv;
      auto using orb_true_r.
  - intros (r & <- & Hr). apply filter_In in Hr. destruct Hr as [Hr Hn].
    exists (mkAgg (keys_of r) (value_at rows (fst (keys_of r)) Home (period r))
                  (value_at rows (fst (keys_of r)) Away (period r))).
    split; [reflexivity|]. apply in_agged. exists (keys_of r). split; [reflexivity|].
    simpl. apply orb_true_iff in Hn. apply orb_true_iff.
    destruct Hn as [Hn|Hn]; [left|right]; apply value_at_member; exists r; auto.
Qed.

(** The pivot has a column exactly when some row has a value for that side
    and period. *)
Lemma pivot_columns (rows : list StatRow) (c : label) :
  existsb (label_eqb c) (pv_columns (pivot_table rows)) = has_value rows c.
Proof.
  destruct c as [s p]. apply eq_true_iff_eq.
  unfold has_value. rewrite !existsb_exists. split.
  - intros (c & Hc & E). apply label_eqb_eq in E. subst c.
    unfold pivot_table in Hc. simpl in Hc. apply filter_In in Hc.
    destruct Hc as [_ Hc]. apply existsb_exists in Hc. destruct Hc as (i & _ & Hn).
    rewrite agg_lookup_spec in Hn. apply value_at_member in Hn.
    destruct Hn as (r & Hr & Hk & Hv). exists r. split; [exact Hr|].
    simpl. inversion Hk. rewrite String.eqb_refl. exact Hv.
  - intros (r & Hr & Hn). simpl in Hn. apply andb_true_iff in Hn.
    destruct Hn as [Hp Hv]. apply String.eqb_eq in Hp. subst p.
    assert (Hval : notna (value_at rows (fst (keys_of r)) s (period r)) = true).
    { apply value_at_member. exists r. auto. }
    assert (Ha : In (mkAgg (keys_of r) (value_at rows (fst (keys_of r)) Home (period r))
                           (value_at rows (fst (keys_of r)) Away (period r)))
                    (dropna_rows (groupby_first rows))).
    { apply in_agged. exists (keys_of r). split; [reflexivity|]. simpl in *.
      destruct s; rewrite Hval; auto using orb_true_r. }
    exists (s, period r). split; [|now apply label_eqb_eq].
    unfold pivot_table. simpl. apply filter_In. split.
    + assert (Hper : In (period r)
                        (sort_unique String.compare
                           (map (fun a => snd (agg_keys a))
                                (dropna_rows (groupby_first rows))))).
      { apply sort_unique_In; [typeclasses eauto|].
        apply in_map_iff. eexists. split; [|exact Ha]. reflexivity. }
      apply in_or_app. destruct s; [right|left]; now apply in_map.
    + apply existsb_exists. exists (fst (keys_of r)). split.
      * apply sort_unique_In; [typeclasses eauto|].
        apply in_map_iff. eexists. split; [|exact Ha]. reflexivity.
      * rewrite agg_lookup_spec. exact Hval.
Qed.

End PivotFacts.

(** ** The prompt *)

Module PromptFacts.
Import Labels LabelFacts Pivot Prompt PivotFacts.

(** One period: the clause, provided the row has both columns. *)
Lemma period_step_spec (row : Series) (prompt p : string) :
  period_step row prompt p
  = if existsb (label_eqb (Home, p)) (s_labels row)
       && existsb (label_eqb (Away, p)) (s_labels row)
    then Return (prompt ++ period_clause p (s_cell row (Home, p)) (s_cell row (Away, p)))
    else Raise KeyError.
Proof.
  unfold period_step, series_getitem.
  destruct (existsb (label_eqb (Home, p)) (s_labels row)); [|reflexivity].
  destruct (existsb (label_eqb (Away, p)) (s_labels row)); [|reflexivity].
  destruct (s_cell row (Home, p)) as [x|], (s_cell row (Away, p)) as [y|]; simpl;
    try reflexivity.
  now rewrite append_empty_r.
Qed.

(** One turn of the loop over the periods, on a row of the pivot of [rows]:
    either column may be missing. *)
Ltac read_period rows :=
  rewrite period_step_spec; cbn [s_labels s_cell]; rewrite !pivot_columns;
  match goal with
  | |- context [has_value rows (Home, ?p) && has_value rows (Away, ?p)] =>
      destruct (has_value rows (Home, p)); [|reflexivity];
      destruct (has_value rows (Away, p)); [|reflexivity];
      cbn [andb]
  end.

(** One row of the pivot: the text of its group, provided the pivot has the
    six columns. *)
Lemma row_step_spec (rows : list StatRow) (prompt : string) (i : gkey) :
  row_step prompt
    (i, {| s_labels := pv_columns (pivot_table rows);
           s_cell := pv_cell (pivot_table rows) i |})
  = if forallb (has_value rows) six_labels
    then Return (prompt ++ group_text rows i)
    else Raise KeyError.
Proof.
  unfold row_step, periods, six_labels.
  cbn [fst snd for_each forallb bind ret Monad_result].
  do 3 (read_period rows).
  cbn [result_bind]. unfold pivot_table, group_text. cbn [pv_cell dropna_columns unstack].
  rewrite !agg_lookup_spec. rewrite !append_assoc. reflexivity.
Qed.

(** The loop over the rows of the pivot. *)
Lemma rows_loop (rows : list StatRow) (groups : list gkey) (prompt : string) :
  for_each row_step
    (map (fun i => (i, {| s_labels := pv_columns (pivot_table rows);
                          s_cell := pv_cell (pivot_table rows) i |})) groups)
    prompt
  = match groups with
    | [] => Return prompt
    | _ :: _ =>
        if forallb (has_value rows) six_labels
        then Return (prompt ++ join (map (group_text rows) groups))
        else Raise KeyError
    end.
Proof.
  revert prompt. induction groups as [|i groups IH]; intros prompt; [reflexivity|].
  cbn [map for_each]. rewrite row_step_spec.
  destruct (forallb (has_value rows) six_labels) eqn:E; [|reflexivity].
  rewrite IH. destruct groups as [|j groups].
  - simpl. now rewrite append_empty_r.
  - cbn [map join]. now rewrite append_assoc.
Qed.

Section Builder.

Variable format_other : value -> string.

Local Abbreviation get_team_llm_prompt := (get_team_llm_prompt format_other).
Local Abbreviation expected_prompt := (expected_prompt format_other).

(** What the builder computes: the match information is read first; then
    the prompt is built when the pivot is [readable], and the first row
    raises [KeyError] otherwise. *)
Lemma get_team_llm_prompt_spec (rows : list StatRow) (match_dict : value) :
  get_team_llm_prompt rows match_dict
  = (m <- read_metadata match_dict ;;
     if readable rows then Return (expected_prompt rows m) else Raise KeyError).
Proof.
  unfold Prompt.get_team_llm_prompt. cbn [bind Monad_result].
  destruct (read_metadata match_dict) as [m|e]; [|reflexivity].
  cbn [result_bind]. unfold iterrows. rewrite rows_loop, pivot_index.
  unfold readable, Prompt.expected_prompt, stats_section.
  destruct (stat_groups rows) as [|i groups].
  - cbn [result_bind ret Monad_result map join]. now rewrite !append_assoc.
  - destruct (forallb (has_value rows) six_labels); [|reflexivity].
    cbn [result_bind ret Monad_result]. now rewrite !append_assoc.
Qed.

(** C4: in every prompt the builder returns, each statistic group reads
    its key, then the clauses of the full match, the first half and the
    second half in that order, each one with both sides, the one side
    present, or nothing; and the builder does return this prompt whenever
    the pivot is readable. *)
Theorem prompt_period_clauses (rows : list StatRow) (match_dict : value) (m : Metadata) :
  read_metadata match_dict = Return m ->
  (forall prompt, get_team_llm_prompt rows match_dict = Return prompt ->
                  prompt = header ++ join (map (group_text rows) (stat_groups rows))
                           ++ metadata_section format_other m ++ closing_instruction)
  /\ (readable rows = true ->
      get_team_llm_prompt rows match_dict = Return (expected_prompt rows m)).
Proof.
  intros Hm. rewrite get_team_llm_prompt_spec, Hm. cbn [bind Monad_result result_bind].
  split.
  - intros prompt H. destruct (readable rows); [|discriminate].
    inversion H. reflexivity.
  - intros ->. reflexivity.
Qed.

(** C5: on the end-to-end scenario the builder raises [KeyError]: the pivot
    of the one Possession row has the two full-match columns only, and the
    loop reads the first-half columns next. *)
Theorem scenario_raises_key_error (h_manager a_manager stadium : value) :
  get_team_llm_prompt [possession] (scenario_dict h_manager a_manager stadium)
  = Raise KeyError.
Proof. reflexivity. Qed.

(** The scenario raises in the same way when the halves are rows without
    values: [dropna] removes them before the pivot is unstacked. *)
Lemma scenario_three_rows_raises (h_manager a_manager stadium : value) :
  get_team_llm_prompt possession_three_rows (scenario_dict h_manager a_manager stadium)
  = Raise KeyError.
Proof. reflexivity. Qed.

(** *** Independence of the order of the rows *)






(** The groups of the pivot come by key, then by category. *)
Lemma pivot_index_sorted (rows : list StatRow) :
  StronglySorted (lt cmp_gkey) (map fst (iterrows (pivot_table rows))).
Proof.
  unfold iterrows. rewrite map_map. cbn [fst]. rewrite map_id, pivot_index.
  apply sort_unique_sorted. typeclasses eauto.
Qed.


End Builder.

(** Without that proviso the first row of a group and period wins, and the
    order of the rows shows in the prompt. *)
Example first_row_wins :
  value_at [mkStat "Shots" "Attack" "ALL" (Some "7") None;
            mkStat "Shots" "Attack" "ALL" (Some "9") None] ("Shots", "Attack") Home "ALL"
  = Some "7"
  /\ value_at [mkStat "Shots" "Attack" "ALL" (Some "9") None;
               mkStat "Shots" "Attack" "ALL" (Some "7") None] ("Shots", "Attack") Home "ALL"
     = Some "9".
Proof. split; reflexivity. Qed.

(** A group with one side only in a period, and no value in another. *)
Example sample_group_text :
  group_text sample_rows ("Possession", "General")
  = "Possession: ALL: Home 60, Away 40; 1ST: Home 55; " ++ nl ++ nl
  /\ group_text sample_rows ("Shots", "Attack")
     = "Shots: 1ST: Away 3; 2ND: Home 7, Away 3; " ++ nl ++ nl.
Proof. split; reflexivity. Qed.



Lemma prompt_period_clauses_witness :
  read_metadata (scenario_dict (VStr "Slot") (VStr "Amorim") (VStr "Anfield"))
  = Return (scenario_meta (VStr "Slot") (VStr "Amorim") (VStr "Anfield"))
  /\ (forall prompt,
        get_team_llm_prompt (fun _ => "") sample_rows
          (scenario_dict (VStr "Slot") (VStr "Amorim") (VStr "Anfield")) = Return prompt ->
        prompt = header ++ join (map (group_text sample_rows) (stat_groups sample_rows))
                 ++ metadata_section (fun _ => "")
                      (scenario_meta (VStr "Slot") (VStr "Amorim") (VStr "Anfield"))
                 ++ closing_instruction)
  /\ (readable sample_rows = true ->
      get_team_llm_prompt (fun _ => "") sample_rows
        (scenario_dict (VStr "Slot") (VStr "Amorim") (VStr "Anfield"))
      = Return (expected_prompt (fun _ => "") sample_rows
                  (scenario_meta (VStr "Slot") (VStr "Amorim") (VStr "Anfield")))).
Proof.
  split; [reflexivity|].
  apply (prompt_period_clauses (fun _ => "") sample_rows
           (scenario_dict (VStr "Slot") (VStr "Amorim") (VStr "Anfield"))
           (scenario_meta (VStr "Slot") (VStr "Amorim") (VStr "Anfield"))).
  reflexivity.
Defined.

(** The sample table is readable, and its prompt is built. *)
Example sample_prompt_built :
  readable sample_rows = true
  /\ get_team_llm_prompt (fun _ => "") sample_rows
       (scenario_dict (VStr "Slot") (VStr "Amorim") (VStr "Anfield"))
     = Return (expected_prompt (fun _ => "") sample_rows
                 (scenario_meta (VStr "Slot") (VStr "Amorim") (VStr "Anfield"))).
Proof. split; reflexivity. Qed.


(** The shuffled sample table is read out Possession first, then Shots,
    though its first row is a Shots row. *)
Example shuffled_prompt_sorted :
  stat_groups sample_rows_shuffled = [("Possession", "General"); ("Shots", "Attack")]
  /\ exists rest,
       get_team_llm_prompt (fun _ => "") sample_rows_shuffled
         (scenario_dict (VStr "Slot") (VStr "Amorim") (VStr "Anfield"))
       = Return (header ++ "Possession: ALL: Home 60, Away 40; 1ST: Home 55; " ++ nl ++ nl
                 ++ "Shots: 1ST: Away 3; 2ND: Home 7, Away 3; " ++ nl ++ nl ++ rest).
Proof. split; [reflexivity|]. eexists. vm_compute. reflexivity. Qed.


End PromptFacts.

(** ** Frames: lookups after the pandas operations *)

Module FrameOpsFacts.
Import Frame FrameOps PositionFilterFacts.

Lemma mem_string_In (x : string) (l : list string) :
  mem_string x l = true <-> In x l.
Proof.
  unfold mem_string. rewrite existsb_exists. split.
  - intros (y & Hy & E). apply String.eqb_eq in E. now subst.
  - intros H. exists x. split; [exact H | apply String.eqb_refl].
Qed.

Lemma mem_string_false (x : string) (l : list string) :
  mem_string x l = false <-> ~ In x l.
Proof.
  rewrite <- mem_string_In. destruct (mem_string x l); split; congruence.
Qed.

Lemma has_column_find_eq (df : DataFrame) (name : string) :
  has_column df name
  = match find_column (columns df) name with Some _ => true | None => false end.
Proof.
  unfold has_column, column_names. induction (columns df) as [|[n c] cols IH]; simpl.
  - reflexivity.
  - rewrite String.eqb_sym. destruct (String.eqb n name); [reflexivity | exact IH].
Qed.

Lemma select_map {A B : Type} (f : A -> B) (mask : list bool) (xs : list A) :
  select mask (map f xs) = map f (select mask xs).
Proof.
  revert xs. induction mask as [|b mask IH]; intros [|x xs]; simpl; try reflexivity.
  destruct b; simpl; now rewrite IH.
Qed.

Lemma column_names_loc (df : DataFrame) (mask : list bool) :
  column_names (loc df mask) = column_names df.
Proof. unfold column_names, loc. simpl. rewrite map_map. reflexivity. Qed.

Lemma find_column_loc (df : DataFrame) (mask : list bool) (name : string) :
  find_column (columns (loc df mask)) name
  = option_map (select mask) (find_column (columns df) name).
Proof. unfold loc. simpl. apply find_column_map_snd. Qed.

(** A dropped column is gone. *)
Lemma find_column_dropped (labels : list string) cols name :
  mem_string name labels = true ->
  find_column (filter (fun nc => negb (mem_string (fst nc) labels)) cols) name = None.
Proof.
  intros Hname. induction cols as [|[n c] cols IH]; simpl; [reflexivity|].
  destruct (mem_string n labels) eqn:E; simpl; [exact IH|].
  destruct (String.eqb n name) eqn:En; [|exact IH].
  apply String.eqb_eq in En. congruence.
Qed.

(** A drop that returns: the rows stay, the listed columns go, the others
    are untouched. *)
Lemma drop_columns_returns (df df' : DataFrame) (labels : list string) :
  drop_columns df labels = Return df' ->
  index df' = index df
  /\ forall name, find_column (columns df') name
                  = if mem_string name labels then None
                    else find_column (columns df) name.
Proof.
  unfold drop_columns. destruct (forallb _ labels); [|discriminate].
  intros H. inversion H. subst df'. clear H. simpl. split; [reflexivity|].
  intros name. destruct (mem_string name labels) eqn:E.
  - now apply find_column_dropped.
  - now apply find_column_filter.
Qed.

(** A drop raises exactly when a label names no column. *)
Lemma drop_columns_raises (df : DataFrame) (labels : list string) :
  (exists name, In name labels /\ has_column df name = false) ->
  drop_columns df labels = Raise KeyError.
Proof.
  intros (name & Hin & Hno). unfold drop_columns.
  destruct (forallb _ labels) eqn:E; [|reflexivity].
  rewrite forallb_forall in E. specialize (E name Hin).
  unfold has_column in Hno. unfold mem_string in E. congruence.
Qed.

Lemma drop_columns_total (df : DataFrame) (labels : list string) :
  (forall name, In name labels -> has_column df name = true) ->
  exists df', drop_columns df labels = Return df'.
Proof.
  intros H. unfold drop_columns.
  assert (E : forallb (fun l => mem_string l (column_names df)) labels = true).
  { apply forallb_forall. intros l Hl. exact (H l Hl). }
  rewrite E. eauto.
Qed.

Lemma find_column_set (cols : list (string * list value)) (name name' : string)
    (c : list value) :
  find_column (set_column cols name c) name'
  = if String.eqb name name' then Some c else find_column cols name'.
Proof.
  induction cols as [|[n c0] cols IH]; simpl.
  - reflexivity.
  - destruct (String.eqb n name) eqn:E; simpl.
    + apply String.eqb_eq in E. subst n. destruct (String.eqb name name'); reflexivity.
    + destruct (String.eqb n name') eqn:E'; [|exact IH].
      apply String.eqb_eq in E'. subst n. rewrite String.eqb_sym, E. reflexivity.
Qed.

(** [apply] returns when every cell does, with one result per cell. *)
Lemma apply_returns (f : value -> result value) (P : value -> Prop) (s xs : list value) :
  (forall v x, f v = Return x -> P x) ->
  apply f s = Return xs -> Forall P xs /\ List.length xs = List.length s.
Proof.
  intros HP. revert xs. induction s as [|v s IH]; simpl; intros xs H.
  - inversion H. auto.
  - unfold result_bind in H. destruct (f v) as [x|e] eqn:Ev; [|discriminate].
    destruct (apply f s) as [xs'|e] eqn:Es; [|discriminate].
    inversion H. subst xs. destruct (IH xs' eq_refl) as [HF HL].
    split; [constructor; eauto | simpl; now rewrite HL].
Qed.

(** When every failure of [f] is the exception [e], one failing cell makes
    [apply] raise [e]. *)
Lemma apply_raises (f : value -> result value) (e : exn) (s : list value) :
  (forall v e', f v = Raise e' -> e' = e) ->
  (exists v, In v s /\ f v = Raise e) ->
  apply f s = Raise e.
Proof.
  intros Hall (v & Hin & Hv). induction s as [|v0 s IH]; [destruct Hin|].
  simpl. unfold result_bind. destruct (f v0) as [x|e'] eqn:E0.
  - destruct Hin as [->|Hin]; [congruence|]. now rewrite (IH Hin).
  - now rewrite (Hall _ _ E0).
Qed.

Lemma apply_total (f : value -> result value) (s : list value) :
  (forall v, In v s -> exists x, f v = Return x) ->
  exists xs, apply f s = Return xs.
Proof.
  induction s as [|v s IH]; intros H; simpl; [eauto|].
  destruct (H v (or_introl eq_refl)) as [x Hx]. rewrite Hx.
  destruct IH as [xs Hxs]; [intros; apply H; now right|].
  unfold result_bind. rewrite Hxs. eauto.
Qed.

End FrameOpsFacts.

(** ** The scraper's player table *)

Module ScraperTablesFacts.
Import Frame FrameOps Scraper ScraperTables FrameOpsFacts.

(** The columns [~duplicated] keeps: each name once, and none of the names
    already seen. *)
Lemma kept_names (seen names : list string) :
  let kept := select (map negb (duplicated_from seen names)) names in
  NoDup kept /\ forall n, In n kept <-> In n names /\ ~ In n seen.
Proof.
  revert seen. induction names as [|n names IH]; intros seen; simpl.
  - split; [constructor | tauto].
  - destruct (IH (n :: seen)) as [HN HI]. destruct (mem_string n seen) eqn:E; simpl.
    + apply mem_string_In in E. split; [exact HN|].
      intros x. rewrite HI. simpl. split.
      * tauto.
      * intros [[->|Hx] Hs]; [contradiction|]. split; [exact Hx|].
        intros [->|H]; contradiction.
    + apply mem_string_false in E. split.
      * constructor; [|exact HN]. rewrite HI. simpl. tauto.
      * intros x. rewrite HI. simpl. split.
        -- intros [->|[Hx Hs]]; tauto.
        -- intros [[->|Hx] Hs]; [now left|].
           destruct (string_dec n x) as [->|Hne]; [now left|]. right. tauto.
Qed.

(** Removing the repeated columns keeps the first column of every name. *)
Lemma kept_lookup (seen : list string) (cols : list (string * list value)) (name : string) :
  ~ In name seen ->
  find_column (select (map negb (duplicated_from seen (map fst cols))) cols) name
  = find_column cols name.
Proof.
  revert seen. induction cols as [|[n c] cols IH]; intros seen Hname; simpl.
  - reflexivity.
  - destruct (mem_string n seen) eqn:E; simpl.
    + apply mem_string_In in E. destruct (String.eqb n name) eqn:En.
      * apply String.eqb_eq in En. subst n. contradiction.
      * apply IH. intros [->|H]; [|contradiction]. now rewrite String.eqb_refl in En.
    + destruct (String.eqb n name) eqn:En; [reflexivity|].
      apply IH. intros [->|H]; [|contradiction]. now rewrite String.eqb_refl in En.
Qed.

Lemma remove_duplicate_columns_NoDup (df : DataFrame) :
  NoDup (column_names (remove_duplicate_columns df)).
Proof.
  unfold remove_duplicate_columns, loc_columns, column_names. simpl.
  rewrite <- select_map. apply (kept_names [] (map fst (columns df))).
Qed.

Section ScraperTablesFacts.

Context {World : Type}.
Context {Sofascore Understat : Type}.
Variable scrape_player_match_stats :
  Sofascore -> string -> World -> result DataFrame * World.

Local Abbreviation get_player_stats :=
  (get_player_stats (Understat := Understat) scrape_player_match_stats).

(** X1: the player table the scraper hands out never has two columns of the
    same name. *)
Theorem player_stats_columns_distinct
    (self : Scraper) (w w' : World) (stats_df : DataFrame) :
  get_player_stats self w = (Return stats_df, w') ->
  NoDup (column_names stats_df).
Proof.
  unfold ScraperTables.get_player_stats.
  destruct (scrape_player_match_stats _ _ w) as [[raw|e] w1]; intros H; inversion H.
  apply remove_duplicate_columns_NoDup.
Qed.

(** X2: when the provider returns a table, the scraper hands out one with
    the same rows and, under every name, the first column the provider sent
    under that name. *)
Theorem player_stats_keeps_first_columns (self : Scraper) (w w' : World) (raw : DataFrame) :
  scrape_player_match_stats (ss self) (url self) w = (Return raw, w') ->
  exists stats_df,
    get_player_stats self w = (Return stats_df, w')
    /\ index stats_df = index raw
    /\ forall name, find_column (columns stats_df) name = find_column (columns raw) name.
Proof.
  intros H. unfold ScraperTables.get_player_stats. rewrite H.
  eexists. split; [reflexivity|]. split; [reflexivity|].
  intros name. unfold remove_duplicate_columns, loc_columns, duplicated, column_names.
  simpl. apply kept_lookup. intros [].
Qed.

End ScraperTablesFacts.

Lemma player_stats_columns_distinct_witness :
  get_player_stats (Understat := unit) (fun (_ : unit) _ (w : unit) => (Return repeated_columns, w))
    (init tt tt "match") tt
  = (Return (mkFrame [0; 1]%Z [("name", [VStr "Alisson"; VStr "Virgil"]);
                               ("position", [VStr "G"; VStr "D"])]), tt)
  /\ NoDup ["name"; "position"].
Proof.
  split; [reflexivity|].
  apply (player_stats_columns_distinct (Understat := unit)
           (fun (_ : unit) _ (w : unit) => (Return repeated_columns, w))
           (init tt tt "match") tt tt
           (mkFrame [0; 1]%Z [("name", [VStr "Alisson"; VStr "Virgil"]);
                              ("position", [VStr "G"; VStr "D"])])).
  reflexivity.
Defined.

Lemma player_stats_keeps_first_columns_witness :
  exists stats_df,
    get_player_stats (Understat := unit)
      (fun (_ : unit) _ (w : unit) => (Return repeated_columns, w)) (init tt tt "match") tt
    = (Return stats_df, tt)
    /\ index stats_df = index repeated_columns
    /\ forall name, find_column (columns stats_df) name
                    = find_column (columns repeated_columns) name.
Proof.
  apply (player_stats_keeps_first_columns (Understat := unit)
           (fun (_ : unit) _ (w : unit) => (Return repeated_columns, w))
           (init tt tt "match") tt tt repeated_columns).
  reflexivity.
Defined.

End ScraperTablesFacts.

(** ** The general player statistics *)

Module GeneralStatsFacts.
Import Frame FrameOps Extractors GeneralStats PositionFilterFacts FrameOpsFacts.

Lemma extract_country_name_mapping (v : value) :
  isinstance_dict v = true -> exists x, extract_country_name v = Return x.
Proof.
  destruct v; try discriminate. intros _. unfold extract_country_name. simpl.
  destruct (dict_get d "name"); simpl; eauto.
Qed.

Lemma extract_country_name_exn (v : value) (e : exn) :
  extract_country_name v = Raise e -> e = TypeError.
Proof.
  destruct v; try (intros H; inversion H; reflexivity).
  unfold extract_country_name. simpl. destruct (dict_get d "name"); discriminate.
Qed.

Lemma drop_columns_exn (df : DataFrame) (labels : list string) (e : exn) :
  drop_columns df labels = Raise e -> e = KeyError.
Proof. unfold drop_columns. destruct (forallb _ labels); congruence. Qed.

Section GeneralStatsFacts.

Variable json_decode : string -> option value.
Variable float_of_string : string -> option spec_float.

Local Abbreviation extract_rating := (extract_rating json_decode float_of_string).
Local Abbreviation general_stats_preprocess :=
  (general_stats_preprocess json_decode float_of_string).

(** The rating normalizer gives a float or None, or raises [AttributeError];
    nothing else. *)
Lemma extract_rating_cases (v : value) :
  (exists x, extract_rating v = Return x /\ is_rating x = true)
  \/ extract_rating v = Raise AttributeError.
Proof.
  destruct v; try (left; eexists; split; reflexivity); [now right|].
  unfold Extractors.extract_rating. simpl.
  destruct (dict_get d "original") as [x|]; simpl; [|now right].
  unfold result_bind. destruct (py_float float_of_string x); simpl; [|now right].
  left. eexists. split; reflexivity.
Qed.

Lemma extract_rating_exn (v : value) (e : exn) :
  extract_rating v = Raise e -> e = AttributeError.
Proof.
  destruct (extract_rating_cases v) as [(x & Hx & _)|H]; congruence.
Qed.

Lemma extract_rating_is_rating (v x : value) :
  extract_rating v = Return x -> is_rating x = true.
Proof.
  destruct (extract_rating_cases v) as [(y & Hy & Hr)|H]; congruence.
Qed.

(** The stages of a preprocessing that returns. *)
Lemma general_stats_stages (df out : DataFrame) :
  general_stats_preprocess df = Return out ->
  exists df1 country names df2 versions ratings,
    drop_columns df irrelevant_columns = Return df1
    /\ getitem df1 "country" = Return country
    /\ apply extract_country_name country = Return names
    /\ drop_columns (setitem df1 "country_name" names) ["country"] = Return df2
    /\ getitem df2 "ratingVersions" = Return versions
    /\ apply extract_rating versions = Return ratings
    /\ drop_columns (setitem df2 "match_rating" ratings) ["ratingVersions"] = Return out.
Proof.
  unfold GeneralStats.general_stats_preprocess. cbn [bind ret Monad_result].
  unfold result_bind. intros H.
  destruct (drop_columns df irrelevant_columns) as [df1|] eqn:E1; [|discriminate].
  destruct (getitem df1 "country") as [country|] eqn:E2; [|discriminate].
  destruct (apply extract_country_name country) as [names|] eqn:E3; [|discriminate].
  destruct (drop_columns (setitem df1 "country_name" names) ["country"])
    as [df2|] eqn:E4; [|discriminate].
  destruct (getitem df2 "ratingVersions") as [versions|] eqn:E5; [|discriminate].
  destruct (apply extract_rating versions) as [ratings|] eqn:E6; [|discriminate].
  destruct (drop_columns (setitem df2 "match_rating" ratings) ["ratingVersions"])
    as [df3|] eqn:E7; [|discriminate].
  inversion H. subst df3. exists df1, country, names, df2, versions, ratings. tauto.
Qed.

(** Every lookup in the result, in terms of the input. *)
Lemma general_stats_lookup (df out : DataFrame) :
  general_stats_preprocess df = Return out ->
  index out = index df
  /\ exists names ratings,
       Forall (fun v => is_rating v = true) ratings
       /\ forall name,
            find_column (columns out) name
            = if mem_string name ["ratingVersions"] then None
              else if String.eqb "match_rating" name then Some ratings
              else if mem_string name ["country"] then None
              else if String.eqb "country_name" name then Some names
              else if mem_string name irrelevant_columns then None
              else find_column (columns df) name.
Proof.
  intros H. apply general_stats_stages in H.
  destruct H as (df1 & country & names & df2 & versions & ratings
                 & E1 & E2 & E3 & E4 & E5 & E6 & E7).
  apply drop_columns_returns in E1, E4, E7.
  destruct E1 as [I1 F1], E4 as [I4 F4], E7 as [I7 F7].
  split; [simpl in *; congruence|].
  exists names, ratings. split.
  - eapply apply_returns; [|exact E6]. apply extract_rating_is_rating.
  - intros name. rewrite F7. destruct (mem_string name ["ratingVersions"]); [reflexivity|].
    cbn [setitem columns]. rewrite find_column_set.
    destruct (String.eqb "match_rating" name); [reflexivity|].
    rewrite F4. destruct (mem_string name ["country"]); [reflexivity|].
    cbn [setitem columns]. rewrite find_column_set.
    destruct (String.eqb "country_name" name); [reflexivity|].
    apply F1.
Qed.

Lemma general_stats_hides (df out : DataFrame) :
  general_stats_preprocess df = Return out -> hides_raw_columns out.
Proof.
  intros H. apply general_stats_lookup in H.
  destruct H as (_ & names & ratings & _ & Hfind).
  intros name Hin. rewrite has_column_find_eq, Hfind.
  unfold raw_columns, irrelevant_columns in Hin. simpl in Hin.
  repeat (destruct Hin as [<-|Hin]; [reflexivity|]). destruct Hin.
Qed.

(** X3: without one of the seven columns it drops first, or without the
    country column, the preprocessing raises [KeyError]: this drop has no
    handler. *)
Theorem general_stats_needs_columns (df : DataFrame) :
  (exists name, In name (irrelevant_columns ++ ["country"])%list
                /\ has_column df name = false) ->
  general_stats_preprocess df = Raise KeyError.
Proof.
  intros (name & Hin & Hno). unfold GeneralStats.general_stats_preprocess.
  cbn [bind ret Monad_result]. apply in_app_or in Hin. destruct Hin as [Hin|Hin].
  - rewrite (drop_columns_raises df irrelevant_columns); [reflexivity|eauto].
  - destruct Hin as [<-|[]].
    destruct (drop_columns df irrelevant_columns) as [df1|e] eqn:E1.
    + apply drop_columns_returns in E1. destruct E1 as [_ F1].
      cbn [result_bind]. unfold getitem. rewrite F1.
      replace (mem_string "country" irrelevant_columns) with false by reflexivity.
      rewrite has_column_find_eq in Hno.
      destruct (find_column (columns df) "country"); [discriminate|reflexivity].
    + apply drop_columns_exn in E1. now subst e.
Qed.

(** X4: one country cell that is not a mapping makes the whole
    preprocessing raise [TypeError]; no player comes out. *)
Theorem malformed_country_aborts (df : DataFrame) (countries : list value) :
  (forall name, In name irrelevant_columns -> has_column df name = true) ->
  find_column (columns df) "country" = Some countries ->
  (exists cell, In cell countries /\ isinstance_dict cell = false) ->
  general_stats_preprocess df = Raise TypeError.
Proof.
  intros Hseven Hcountry (cell & Hin & Hcell).
  unfold GeneralStats.general_stats_preprocess. cbn [bind ret Monad_result].
  destruct (drop_columns_total df irrelevant_columns Hseven) as [df1 E1].
  rewrite E1. cbn [result_bind]. apply drop_columns_returns in E1. destruct E1 as [_ F1].
  unfold getitem. rewrite F1.
  replace (mem_string "country" irrelevant_columns) with false by reflexivity.
  rewrite Hcountry. cbn [result_bind].
  rewrite (apply_raises extract_country_name TypeError); [reflexivity| |].
  - apply extract_country_name_exn.
  - exists cell. split; [exact Hin|].
    now apply ExtractorFacts.extract_country_name_not_mapping.
Qed.

(** X5: a rating cell that is text makes the whole preprocessing raise
    [AttributeError], however well formed the text is. *)
Theorem text_rating_aborts (df : DataFrame) (countries versions : list value) :
  (forall name, In name irrelevant_columns -> has_column df name = true) ->
  find_column (columns df) "country" = Some countries ->
  (forall cell, In cell countries -> isinstance_dict cell = true) ->
  find_column (columns df) "ratingVersions" = Some versions ->
  (exists cell, In cell versions /\ isinstance_str cell = true) ->
  general_stats_preprocess df = Raise AttributeError.
Proof.
  intros Hseven Hcountry Hdicts Hversions (cell & Hin & Hcell).
  unfold GeneralStats.general_stats_preprocess. cbn [bind ret Monad_result].
  destruct (drop_columns_total df irrelevant_columns Hseven) as [df1 E1].
  rewrite E1. cbn [result_bind]. apply drop_columns_returns in E1. destruct E1 as [_ F1].
  unfold getitem at 1. rewrite F1.
  replace (mem_string "country" irrelevant_columns) with false by reflexivity.
  rewrite Hcountry. cbn [result_bind].
  destruct (apply_total extract_country_name countries) as [names E3].
  { intros v Hv. apply extract_country_name_mapping. now apply Hdicts. }
  rewrite E3. cbn [result_bind].
  destruct (drop_columns_total (setitem df1 "country_name" names) ["country"]) as [df2 E4].
  { intros name [<-|[]]. rewrite has_column_find_eq. cbn [setitem columns].
    rewrite find_column_set, F1.
    replace (mem_string "country" irrelevant_columns) with false by reflexivity.
    replace (String.eqb "country_name" "country") with false by reflexivity.
    now rewrite Hcountry. }
  rewrite E4. cbn [result_bind]. apply drop_columns_returns in E4. destruct E4 as [_ F4].
  unfold getitem. rewrite F4.
  replace (mem_string "ratingVersions" ["country"]) with false by reflexivity.
  cbn [setitem columns]. rewrite find_column_set, F1.
  replace (String.eqb "country_name" "ratingVersions") with false by reflexivity.
  replace (mem_string "ratingVersions" irrelevant_columns) with false by reflexivity.
  rewrite Hversions. cbn [result_bind].
  rewrite (apply_raises extract_rating AttributeError); [reflexivity| |].
  - apply extract_rating_exn.
  - exists cell. split; [exact Hin|]. destruct cell; try discriminate. reflexivity.
Qed.

(** X6: what comes out of the preprocessing has the rows of the input, none
    of the raw columns, a country name column, a rating column holding only
    floats and None, and every other column as it was. *)
Theorem general_stats_shape (df out : DataFrame) :
  general_stats_preprocess df = Return out ->
  index out = index df
  /\ hides_raw_columns out
  /\ (exists names, find_column (columns out) "country_name" = Some names)
  /\ (exists ratings, find_column (columns out) "match_rating" = Some ratings
                      /\ Forall (fun v => is_rating v = true) ratings)
  /\ (forall name, ~ In name raw_columns -> name <> "country_name" ->
                   name <> "match_rating" ->
                   find_column (columns out) name = find_column (columns df) name).
Proof.
  intros H. apply general_stats_lookup in H.
  destruct H as (Hidx & names & ratings & Hratings & Hfind).
  split; [exact Hidx|]. split; [|split; [|split]].
  - intros name Hin. rewrite has_column_find_eq, Hfind.
    unfold raw_columns, irrelevant_columns in Hin. simpl in Hin.
    repeat (destruct Hin as [<-|Hin]; [reflexivity|]). destruct Hin.
  - exists names. rewrite Hfind. reflexivity.
  - exists ratings. split; [|exact Hratings]. rewrite Hfind. reflexivity.
  - intros name Hraw Hcn Hmr. rewrite Hfind.
    assert (H1 : mem_string name ["ratingVersions"] = false).
    { apply mem_string_false. intros [<-|[]]. apply Hraw. unfold raw_columns.
      apply in_or_app. right. simpl. auto. }
    assert (H2 : mem_string name ["country"] = false).
    { apply mem_string_false. intros [<-|[]]. apply Hraw. unfold raw_columns.
      apply in_or_app. right. simpl. auto. }
    assert (H3 : mem_string name irrelevant_columns = false).
    { apply mem_string_false. intros Hin. apply Hraw. unfold raw_columns.
      apply in_or_app. now left. }
    rewrite H1, H2, H3.
    assert (E1 : String.eqb "match_rating" name = false)
      by (apply String.eqb_neq; congruence).
    assert (E2 : String.eqb "country_name" name = false)
      by (apply String.eqb_neq; congruence).
    now rewrite E1, E2.
Qed.

End GeneralStatsFacts.

Lemma general_stats_needs_columns_witness :
  (exists name, In name (irrelevant_columns ++ ["country"])%list
                /\ has_column PositionFilter.two_players name = false)
  /\ GeneralStats.general_stats_preprocess (fun _ => None) (fun _ => None)
       PositionFilter.two_players = Raise KeyError.
Proof.
  split; [exists "firstName"; split; [simpl; auto | reflexivity]|].
  apply (general_stats_needs_columns (fun _ => None) (fun _ => None)
           PositionFilter.two_players).
  exists "firstName". split; [simpl; auto | reflexivity].
Defined.

Lemma malformed_country_aborts_witness :
  find_column (columns raw_players_no_country) "country"
  = Some [VDict [("name", VStr "Brazil")]; VFloat S754_nan]
  /\ GeneralStats.general_stats_preprocess (fun _ => None) (fun _ => None)
       raw_players_no_country = Raise TypeError.
Proof.
  split; [reflexivity|].
  apply (malformed_country_aborts (fun _ => None) (fun _ => None) raw_players_no_country
           [VDict [("name", VStr "Brazil")]; VFloat S754_nan]).
  - intros name Hin. unfold irrelevant_columns in Hin. simpl in Hin.
    repeat (destruct Hin as [<-|Hin]; [reflexivity|]). destruct Hin.
  - reflexivity.
  - exists (VFloat S754_nan). split; [simpl; auto | reflexivity].
Defined.

Lemma text_rating_aborts_witness :
  find_column (columns raw_players_text_rating) "ratingVersions"
  = Some [VStr "7.0"; VFloat S754_nan]
  /\ GeneralStats.general_stats_preprocess (fun _ => None) (fun _ => None)
       raw_players_text_rating = Raise AttributeError.
Proof.
  split; [reflexivity|].
  apply (text_rating_aborts (fun _ => None) (fun _ => None) raw_players_text_rating
           [VDict [("name", VStr "Brazil")]; VDict []]
           [VStr "7.0"; VFloat S754_nan]).
  - intros name Hin. unfold irrelevant_columns in Hin. simpl in Hin.
    repeat (destruct Hin as [<-|Hin]; [reflexivity|]). destruct Hin.
  - reflexivity.
  - intros cell Hin. simpl in Hin. destruct Hin as [<-|[<-|[]]]; reflexivity.
  - reflexivity.
  - exists (VStr "7.0"). split; [simpl; auto | reflexivity].
Defined.

Lemma general_stats_shape_witness :
  GeneralStats.general_stats_preprocess (fun _ => None) (fun _ => None) raw_players
  = Return shaped_players
  /\ index shaped_players = index raw_players
  /\ hides_raw_columns shaped_players
  /\ (exists names, find_column (columns shaped_players) "country_name" = Some names)
  /\ (exists ratings, find_column (columns shaped_players) "match_rating" = Some ratings
                      /\ Forall (fun v => is_rating v = true) ratings)
  /\ (forall name, ~ In name raw_columns -> name <> "country_name" ->
                   name <> "match_rating" ->
                   find_column (columns shaped_players) name
                   = find_column (columns raw_players) name).
Proof.
  split; [reflexivity|].
  apply (general_stats_shape (fun _ => None) (fun _ => None) raw_players shaped_players).
  reflexivity.
Defined.

End GeneralStatsFacts.

(** ** The position filter: pruning and missing positions *)

Module PruningFacts.
Import Frame FrameOps PositionFilter PositionFilterFacts FrameOpsFacts.

Lemma column_names_filter (labels : list string) (cols : list (string * list value)) :
  map fst (filter (fun nc => negb (mem_string (fst nc) labels)) cols)
  = filter (fun n => negb (mem_string n labels)) (map fst cols).
Proof.
  induction cols as [|[n c] cols IH]; simpl; [reflexivity|].
  destruct (negb (mem_string n labels)); simpl; now rewrite IH.
Qed.

(** The column names after [try: drop except: pass]. *)
Lemma pruned_frame_names (df : DataFrame) (labels : list string) :
  exists df', try_except_all (drop_columns df labels) (Return df) = Return df'
              /\ index df' = index df
              /\ column_names df' = pruned_names (column_names df) labels.
Proof.
  unfold drop_columns, pruned_names. destruct (forallb _ labels); simpl.
  - eexists. split; [reflexivity|]. split; [reflexivity|].
    unfold column_names. simpl. apply column_names_filter.
  - exists df. auto.
Qed.

(** X7: the pruning is all or nothing.  With the nine (seven) listed columns
    all present they are all removed; as soon as one is absent the subset
    keeps every column of the input, the listed ones included. *)
Theorem pruning_all_or_nothing (df : DataFrame) :
  has_column df "position" = true ->
  exists gk out,
    preprocess_gk df = Return gk
    /\ preprocess_outfield df = Return out
    /\ column_names gk = pruned_names (column_names df) gk_drop_list
    /\ column_names out = pruned_names (column_names df) outfield_drop_list.
Proof.
  intros Hpos. apply has_column_find in Hpos. destruct Hpos as [position Hpos].
  destruct (pruned_frame_names (loc df (series_eq position "G")) gk_drop_list)
    as (gk & Egk & _ & Ngk).
  destruct (pruned_frame_names df outfield_drop_list) as (out & Eout & _ & Nout).
  destruct (pruned_frame df outfield_drop_list "position" eq_refl)
    as (out' & Eout' & _ & Hcol).
  assert (out' = out) by congruence. subst out'.
  destruct (drop_own_rows out (series_eq position "GK")) as [dropped Hd].
  exists gk, out. repeat split.
  - unfold preprocess_gk, getitem. rewrite Hpos. cbn [bind ret Monad_result result_bind].
    rewrite Egk. reflexivity.
  - unfold preprocess_outfield. rewrite Eout. cbn [bind ret Monad_result result_bind].
    unfold getattr. rewrite Hcol, Hpos. cbn [result_bind]. rewrite Hd. reflexivity.
  - rewrite Ngk. now rewrite column_names_loc.
  - exact Nout.
Qed.

Lemma pruning_all_or_nothing_witness :
  has_column two_players "position" = true
  /\ exists gk out,
       preprocess_gk two_players = Return gk
       /\ preprocess_outfield two_players = Return out
       /\ column_names gk = pruned_names (column_names two_players) gk_drop_list
       /\ column_names out = pruned_names (column_names two_players) outfield_drop_list.
Proof.
  split; [reflexivity|]. apply (pruning_all_or_nothing two_players). reflexivity.
Defined.

(** X8: without a position column the goalkeeper step raises [KeyError]
    and the outfield step raises [AttributeError]. *)
Theorem position_filter_needs_position (df : DataFrame) :
  has_column df "position" = false ->
  preprocess_gk df = Raise KeyError
  /\ preprocess_outfield df = Raise AttributeError.
Proof.
  intros Hpos. rewrite has_column_find_eq in Hpos.
  destruct (find_column (columns df) "position") eqn:E; [discriminate|]. split.
  - unfold preprocess_gk, getitem. now rewrite E.
  - unfold preprocess_outfield.
    destruct (pruned_frame df outfield_drop_list "position" eq_refl)
      as (out & Eout & _ & Hcol).
    rewrite Eout. cbn [bind ret Monad_result result_bind].
    unfold getattr. now rewrite Hcol, E.
Qed.

Lemma position_filter_needs_position_witness :
  has_column (mkFrame [0]%Z [("name", [VStr "Alisson"])]) "position" = false
  /\ preprocess_gk (mkFrame [0]%Z [("name", [VStr "Alisson"])]) = Raise KeyError
  /\ preprocess_outfield (mkFrame [0]%Z [("name", [VStr "Alisson"])]) = Raise AttributeError.
Proof.
  split; [reflexivity|].
  apply (position_filter_needs_position (mkFrame [0]%Z [("name", [VStr "Alisson"])])).
  reflexivity.
Defined.

(** Pruning adds no column. *)
Lemma pruned_frame_absent (df : DataFrame) (labels : list string) :
  exists df', try_except_all (drop_columns df labels) (Return df) = Return df'
              /\ forall name, has_column df name = false -> has_column df' name = false.
Proof.
  unfold drop_columns. destruct (forallb _ labels); cbn [try_except_all].
  - eexists. split; [reflexivity|]. intros name Hno.
    rewrite has_column_find_eq in *. cbn [columns].
    destruct (mem_string name labels) eqn:E.
    + now rewrite find_column_dropped.
    + now rewrite find_column_filter.
  - exists df. auto.
Qed.

(** The subsets have no column the input does not have. *)
Lemma preprocess_gk_columns (df gk : DataFrame) (name : string) :
  preprocess_gk df = Return gk ->
  has_column df name = false -> has_column gk name = false.
Proof.
  unfold preprocess_gk, getitem. destruct (find_column (columns df) "position") as [p|];
    [|discriminate].
  cbn [bind ret Monad_result result_bind].
  destruct (pruned_frame_absent (loc df (series_eq p "G")) gk_drop_list) as (gk' & E & Habs).
  rewrite E. cbn [result_bind]. intros H Hno. inversion H. subst gk'.
  apply Habs. unfold has_column in *. now rewrite column_names_loc.
Qed.

Lemma preprocess_outfield_columns (df out : DataFrame) :
  preprocess_outfield df = Return out ->
  (exists position, find_column (columns out) "position" = Some position)
  /\ forall name, has_column df name = false -> has_column out name = false.
Proof.
  unfold preprocess_outfield.
  destruct (pruned_frame_absent df outfield_drop_list) as (df' & E & Habs).
  rewrite E. cbn [bind ret Monad_result result_bind]. unfold getattr.
  destruct (find_column (columns df') "position") as [p|] eqn:Ep; [|discriminate].
  cbn [result_bind].
  destruct (drop_rows df' (index (loc df' (series_eq p "GK")))); [|discriminate].
  cbn [result_bind]. intros H. inversion H. subst df'. split; [eauto | exact Habs].
Qed.

End PruningFacts.

(** ** The prompt: the six columns *)

Module PromptColumnFacts.
Import Pivot Prompt PromptFacts.

(** X9: when some group has a value but one side has none in one of the
    three periods, in any group, the builder raises [KeyError] and no
    prompt comes out. *)
Theorem builder_needs_six_columns (format_other : value -> string)
    (rows : list StatRow) (match_dict : value) (m : Metadata) :
  read_metadata match_dict = Return m ->
  stat_groups rows <> [] ->
  (exists c, In c six_labels /\ has_value rows c = false) ->
  get_team_llm_prompt format_other rows match_dict = Raise KeyError.
Proof.
  intros Hm Hgroups (c & Hin & Hc).
  rewrite get_team_llm_prompt_spec, Hm. cbn [bind Monad_result result_bind].
  unfold readable. destruct (stat_groups rows) as [|i groups]; [congruence|].
  destruct (forallb (has_value rows) six_labels) eqn:E; [|reflexivity].
  rewrite forallb_forall in E. rewrite (E c Hin) in Hc. discriminate.
Qed.

Lemma builder_needs_six_columns_witness :
  read_metadata (scenario_dict (VStr "Slot") (VStr "Amorim") (VStr "Anfield"))
  = Return (scenario_meta (VStr "Slot") (VStr "Amorim") (VStr "Anfield"))
  /\ stat_groups [possession; mkStat "Shots" "Attack" "2ND" (Some "7") (Some "3")] <> []
  /\ has_value [possession; mkStat "Shots" "Attack" "2ND" (Some "7") (Some "3")]
       (Home, "1ST") = false
  /\ get_team_llm_prompt (fun _ => "")
       [possession; mkStat "Shots" "Attack" "2ND" (Some "7") (Some "3")]
       (scenario_dict (VStr "Slot") (VStr "Amorim") (VStr "Anfield"))
     = Raise KeyError.
Proof.
  split; [reflexivity|]. split; [discriminate|]. split; [reflexivity|].
  apply (builder_needs_six_columns (fun _ => "")
           [possession; mkStat "Shots" "Attack" "2ND" (Some "7") (Some "3")]
           (scenario_dict (VStr "Slot") (VStr "Amorim") (VStr "Anfield"))
           (scenario_meta (VStr "Slot") (VStr "Amorim") (VStr "Anfield"))).
  - reflexivity.
  - discriminate.
  - exists (Home, "1ST"). split; [simpl; auto | reflexivity].
Defined.

End PromptColumnFacts.

(** ** The report generator: the two exchanges *)

Module ExchangeFacts.
Import LLM FirstExchange.

Section Keeps.

Context {World S : Type}.
Variable obs : World -> S.

Local Abbreviation keeps := (keeps obs).

Lemma keeps_bind {A B : Type} (c : M A) (k : A -> M B) :
  keeps c -> (forall a, keeps (k a)) -> keeps (M_bind c k).
Proof.
  intros Hc Hk w. unfold M_bind. specialize (Hc w).
  destruct (c w) as [[a|e] w1]; simpl in *; [|exact Hc].
  now rewrite (Hk a w1).
Qed.

Lemma keeps_lift {A : Type} (r : result A) : keeps (lift r).
Proof. intros w. reflexivity. Qed.

Lemma keeps_ret {A : Type} (a : A) : keeps (fun w : World => (Return a, w)).
Proof. intros w. reflexivity. Qed.

Lemma keeps_try {A : Type} (body : M A) (classes : list exn) (handler : exn -> M A) :
  keeps body -> (forall e, keeps (handler e)) ->
  keeps (try_except_M body classes handler).
Proof.
  intros Hb Hh w. unfold try_except_M. specialize (Hb w).
  destruct (body w) as [[a|e] w1]; simpl in *; [exact Hb|].
  destruct (existsb (exn_isa e) classes); simpl; [|exact Hb].
  now rewrite (Hh e w1).
Qed.

End Keeps.

Section ExchangeFacts.

Context {World : Type}.
Variable requests_post : request -> World -> result response * World.
Variable print : value -> World -> World.
Variable json_dumps : value -> string.
Variable json_decode : string -> option value.
Variable str_exn : exn -> string.

Local Abbreviation general_match_report :=
  (general_match_report requests_post print json_dumps json_decode str_exn).
Local Abbreviation first_exchange := (first_exchange requests_post json_dumps json_decode).
Local Abbreviation first_report := (first_report json_decode).

(** Whatever the posts and prints leave alone, the report generator leaves
    alone. *)
Lemma general_match_report_keeps {S : Type} (obs : World -> S) (prompt : string) :
  (forall r, keeps obs (requests_post r)) ->
  (forall v w, obs (print v w) = obs w) ->
  keeps obs (general_match_report prompt).
Proof.
  intros Hpost Hprint. unfold LLM.general_match_report. cbn [bind ret Monad_M].
  assert (Hp : forall v, keeps obs (do_print print v)).
  { intros v w. unfold do_print. simpl. apply Hprint. }
  apply keeps_bind; [apply Hpost|]. intros r.
  apply keeps_bind.
  { destruct (status_code r =? 200)%Z; [|apply keeps_ret].
    apply keeps_bind; [apply keeps_lift|]. intros d.
    apply keeps_bind; [apply keeps_lift|]. intros g. apply keeps_ret. }
  intros dr. apply keeps_bind; [|intros; apply keeps_ret].
  apply keeps_try; [|intros; apply Hp].
  apply keeps_bind; [apply Hpost|]. intros r2.
  destruct (status_code r2 =? 200)%Z; [|apply Hp].
  apply keeps_bind; [apply keeps_lift|]. intros b.
  apply keeps_bind; [apply keeps_lift|]. intros t. apply Hp.
Qed.

(** Unfold the generator down to its posts. *)
Ltac open_report :=
  unfold LLM.general_match_report, LLM.the_request in *;
  cbn [bind ret Monad_M]; unfold M_bind, lift.

(** Once the report is fixed, the [try] block ends in it or in an exception. *)
Ltac close_report :=
  match goal with
  | |- context [try_except_M ?b ?c ?h ?w] =>
      destruct (try_except_M b c h w) as [[[]|?] ?]
  end; simpl; congruence.

(** The generator after the first answer [r]: the second exchange cannot
    change the report, only prevent it. *)
Lemma after_first_answer (prompt : string) (w w1 : World) (r : response) :
  requests_post (the_request json_dumps prompt) w = (Return r, w1) ->
  match first_report r with
  | Raise e => general_match_report prompt w = (Raise e, w1)
  | Return v =>
      forall v', fst (general_match_report prompt w) = Return v' -> v' = v
  end.
Proof.
  intros Hpost. unfold FirstExchange.first_report.
  cbn [bind Monad_result result_bind].
  destruct (status_code r =? 200)%Z eqn:Hstatus.
  - destruct (json_loads json_decode (VStr (text r))) as [d|e] eqn:Hd;
      cbn [result_bind].
    + destruct (subscript d "response") as [v|e] eqn:Hv.
      * intros v'. open_report. rewrite Hpost, Hstatus, Hd, Hv. cbn [fst snd].
        close_report.
      * open_report. rewrite Hpost, Hstatus, Hd, Hv. reflexivity.
    + open_report. rewrite Hpost, Hstatus, Hd. reflexivity.
  - intros v'. open_report. rewrite Hpost, Hstatus. cbn [fst snd]. close_report.
Qed.

(** X10: a failure of the first exchange is final.  Whether the post itself
    fails, the body of a 200 answer is not JSON, or its JSON has no
    ["response"] field, the exception is raised as it is and no second post
    is made. *)
Theorem first_exchange_failure_is_final (prompt : string) (w : World) (e : exn) :
  fst (first_exchange prompt w) = Raise e ->
  general_match_report prompt w = (Raise e, snd (first_exchange prompt w)).
Proof.
  unfold FirstExchange.first_exchange.
  destruct (requests_post (the_request json_dumps prompt) w) as [[r|e0] w1] eqn:Hpost.
  - cbn [fst snd]. intros Hr. pose proof (after_first_answer prompt w w1 r Hpost) as H.
    rewrite Hr in H. exact H.
  - cbn [fst snd]. intros H. inversion H. subst e0.
    unfold LLM.general_match_report, LLM.the_request in *.
    cbn [bind ret Monad_M]. unfold M_bind at 1. now rewrite Hpost.
Qed.

(** X11: a report that is returned is the one of the first answer, whatever
    the second post is answered. *)
Theorem report_is_first_answer (prompt : string) (w : World) (v : value) :
  fst (general_match_report prompt w) = Return v ->
  fst (first_exchange prompt w) = Return v.
Proof.
  unfold FirstExchange.first_exchange.
  destruct (requests_post (the_request json_dumps prompt) w) as [[r|e0] w1] eqn:Hpost.
  - cbn [fst]. intros Hv. pose proof (after_first_answer prompt w w1 r Hpost) as H.
    destruct (first_report r) as [v0|e].
    + f_equal. symmetry. now apply H.
    + rewrite H in Hv. discriminate.
  - unfold LLM.general_match_report, LLM.the_request in *.
    cbn [bind ret Monad_M]. unfold M_bind at 1. rewrite Hpost. discriminate.
Qed.

(** X12: on a 200 answer whose JSON object has a ["response"] field the
    report is that field.  The second post carries the decoded answer, not
    the prompt; the report is returned when that post does not succeed. *)
Theorem success_returns_response_field
    (prompt body : string) (w w1 : World) (d : list (string * value)) (v : value) :
  requests_post (the_request json_dumps prompt) w = (Return (mkResponse 200 body), w1) ->
  json_decode body = Some (VDict d) ->
  dict_get d "response" = Some v ->
  non_success
    (fst (requests_post (mkRequest self_url self_headers (json_dumps (VDict d))) w1)) ->
  exists w', general_match_report prompt w = (Return v, w').
Proof.
  intros Hpost Hbody Hfield Hsecond. open_report. rewrite Hpost.
  cbn [status_code text]. replace (200 =? 200)%Z with true by reflexivity.
  unfold json_loads. rewrite Hbody. unfold subscript. rewrite Hfield.
  cbn [fst snd]. unfold try_except_M.
  destruct (requests_post _ w1) as [[r2|e] w2]; cbn [fst] in Hsecond; simpl in Hsecond.
  - apply Z.eqb_neq in Hsecond. rewrite Hsecond. unfold do_print. eauto.
  - cbn [existsb]. rewrite Hsecond. cbn [orb]. unfold do_print. eauto.
Qed.

End ExchangeFacts.

Lemma first_exchange_failure_is_final_witness :
  fst (first_exchange unreachable (fun _ => "{}") (fun _ => None) "Match Stats Summary" 0%nat)
  = Raise ConnectionError
  /\ general_match_report unreachable (fun _ w => w) (fun _ => "{}") (fun _ => None)
       (fun _ => "error") "Match Stats Summary" 0%nat
     = (Raise ConnectionError, 1%nat).
Proof.
  split; [reflexivity|].
  apply (first_exchange_failure_is_final unreachable (fun _ w => w) (fun _ => "{}")
           (fun _ => None) (fun _ => "error") "Match Stats Summary" 0%nat ConnectionError).
  reflexivity.
Defined.

Lemma report_is_first_answer_witness :
  fst (general_match_report obliging (fun _ w => w) (fun _ => "{}") decode_report
         (fun _ => "error") "Match Stats Summary" 0%nat)
  = Return (VStr "Liverpool won.")
  /\ fst (first_exchange obliging (fun _ => "{}") decode_report "Match Stats Summary" 0%nat)
     = Return (VStr "Liverpool won.").
Proof.
  split; [reflexivity|].
  apply (report_is_first_answer obliging (fun _ w => w) (fun _ => "{}") decode_report
           (fun _ => "error") "Match Stats Summary" 0%nat (VStr "Liverpool won.")).
  reflexivity.
Defined.

Lemma success_returns_response_field_witness :
  exists w',
    general_match_report flaky_success (fun _ w => w) (fun _ => "{}") decode_report
      (fun _ => "error") "Match Stats Summary" 0%nat
    = (Return (VStr "Liverpool won."), w').
Proof.
  apply (success_returns_response_field flaky_success (fun _ w => w) (fun _ => "{}")
           decode_report (fun _ => "error") "Match Stats Summary"
           "{response: Liverpool won.}" 0%nat 1%nat
           [("response", VStr "Liverpool won.")] (VStr "Liverpool won.")).
  - reflexivity.
  - reflexivity.
  - reflexivity.
  - simpl. lia.
Defined.

End ExchangeFacts.

(** ** The presenter *)

Module StreamlitFacts.
Import Frame LLM Streamlit PositionFilterFacts FrameOpsFacts.

(** A row label of a frame without repeated labels is selected exactly when
    the mask is set at its place. *)
Lemma select_at {A : Type} (mask : list bool) (xs : list A) (i : nat) (x : A) :
  NoDup xs -> nth_error xs i = Some x ->
  (In x (select mask xs) <-> nth_error mask i = Some true).
Proof.
  revert mask xs. induction i as [|i IH]; intros mask [|y xs] Hnd Hx;
    try discriminate; simpl in Hx; inversion Hnd as [|? ? Hy Hnd']; subst.
  - inversion Hx. subst y. destruct mask as [|b mask]; simpl.
    + split; [tauto | discriminate].
    + destruct b; simpl.
      * split; auto.
      * split; [|discriminate]. intros H. apply select_incl in H. contradiction.
  - assert (Hne : y <> x).
    { intros ->. apply Hy. eapply nth_error_In. exact Hx. }
    destruct mask as [|b mask]; simpl.
    + split; [tauto | discriminate].
    + rewrite <- (IH mask xs Hnd' Hx). destruct b; simpl; [|tauto].
      split; [intros [H|H]; [contradiction | exact H] | auto].
Qed.

Lemma series_eq_at (position : list value) (pos : string) (i : nat) (cell : value) :
  nth_error position i = Some cell ->
  (nth_error (series_eq position pos) i = Some true <-> cell = VStr pos).
Proof.
  intros H. unfold series_eq. rewrite nth_error_map, H. simpl.
  destruct cell; split; try discriminate; intros E; inversion E.
  - f_equal. now apply String.eqb_eq.
  - now rewrite String.eqb_refl.
Qed.

Section StreamlitFacts.

Context {Ext Momentum : Type}.

Local Abbreviation upload_stats := (upload_stats (Ext := Ext) (Momentum := Momentum)).

(** What [upload_stats] puts on the page. *)
Lemma upload_stats_run (gk o : DataFrame) (position : list value) (w : Page) :
  find_column (columns o) "position" = Some position ->
  upload_stats gk o w
  = (Return tt,
     (fst w,
      snd w ++ [Header "Goalkeepers:"; Table gk;
                Header "Defenders"; Table (loc o (series_eq position "D"));
                Header "Midfielders"; Table (loc o (series_eq position "M"));
                Header "Forwards"; Table (loc o (series_eq position "F"))])%list).
Proof.
  intros H. unfold Streamlit.upload_stats, OUTFIELD_POSITIONS, for_each_M.
  cbn [bind ret Monad_Page]. unfold M_bind, show, lift, getitem. rewrite H.
  simpl. repeat rewrite <- app_assoc. reflexivity.
Qed.

(** X13: the three outfield tables sort the rows of the outfield subset by
    position: a row is in the Defenders table exactly when its position is
    D, and likewise for M and F.  A row with any other position, a
    goalkeeper say, is in none of the three. *)
Theorem outfield_tables_by_position (gk o : DataFrame) (position : list value) (w : Page) :
  find_column (columns o) "position" = Some position ->
  NoDup (index o) ->
  exists d m f,
    upload_stats gk o w
    = (Return tt,
       (fst w,
        snd w ++ [Header "Goalkeepers:"; Table gk; Header "Defenders"; Table d;
                  Header "Midfielders"; Table m; Header "Forwards"; Table f])%list)
    /\ forall i label cell,
         nth_error (index o) i = Some label ->
         nth_error position i = Some cell ->
         (In label (index d) <-> cell = VStr "D")
         /\ (In label (index m) <-> cell = VStr "M")
         /\ (In label (index f) <-> cell = VStr "F").
Proof.
  intros Hpos Hnd. do 3 eexists. split; [apply upload_stats_run; exact Hpos|].
  intros i label cell Hl Hc. cbn [loc index].
  repeat split; intros H;
    first [ apply (series_eq_at position _ i cell Hc);
            apply (select_at _ (index o) i label Hnd Hl); exact H
          | apply (select_at _ (index o) i label Hnd Hl);
            apply (series_eq_at position _ i cell Hc); exact H ].
Qed.

(** X14: without a position column in the outfield subset [upload_stats]
    raises [KeyError] after the goalkeeper table is on the page. *)
Theorem upload_stats_needs_position (gk o : DataFrame) (w : Page) :
  has_column o "position" = false ->
  upload_stats gk o w
  = (Raise KeyError, (fst w, snd w ++ [Header "Goalkeepers:"; Table gk])%list).
Proof.
  intros H. rewrite has_column_find_eq in H.
  destruct (find_column (columns o) "position") eqn:E; [discriminate|].
  unfold Streamlit.upload_stats, OUTFIELD_POSITIONS, for_each_M.
  cbn [bind ret Monad_Page]. unfold M_bind, show, lift, getitem. rewrite E.
  simpl. repeat rewrite <- app_assoc. reflexivity.
Qed.

End StreamlitFacts.

Lemma outfield_tables_by_position_witness :
  find_column (columns PositionFilter.two_players) "position" = Some [VStr "G"; VStr "D"]
  /\ NoDup (index PositionFilter.two_players)
  /\ exists d m f,
       upload_stats (Ext := unit) (Momentum := unit)
         PositionFilter.two_players PositionFilter.two_players (tt, [])
       = (Return tt,
          (tt, [Header "Goalkeepers:"; Table PositionFilter.two_players;
                Header "Defenders"; Table d; Header "Midfielders"; Table m;
                Header "Forwards"; Table f]))
       /\ forall i label cell,
            nth_error (index PositionFilter.two_players) i = Some label ->
            nth_error [VStr "G"; VStr "D"] i = Some cell ->
            (In label (index d) <-> cell = VStr "D")
            /\ (In label (index m) <-> cell = VStr "M")
            /\ (In label (index f) <-> cell = VStr "F").
Proof.
  split; [reflexivity|].
  assert (Hnd : NoDup (index PositionFilter.two_players)).
  { simpl. repeat constructor; simpl; intuition discriminate. }
  split; [exact Hnd|].
  apply (outfield_tables_by_position (Ext := unit) (Momentum := unit)
           PositionFilter.two_players PositionFilter.two_players
           [VStr "G"; VStr "D"] (tt, [])).
  - reflexivity.
  - exact Hnd.
Defined.

Lemma upload_stats_needs_position_witness :
  has_column (mkFrame [0]%Z [("name", [VStr "Alisson"])]) "position" = false
  /\ upload_stats (Ext := unit) (Momentum := unit) PositionFilter.two_players
       (mkFrame [0]%Z [("name", [VStr "Alisson"])]) (tt, [])
     = (Raise KeyError, (tt, [Header "Goalkeepers:"; Table PositionFilter.two_players])).
Proof.
  split; [reflexivity|].
  apply (upload_stats_needs_position (Ext := unit) (Momentum := unit)
           PositionFilter.two_players (mkFrame [0]%Z [("name", [VStr "Alisson"])]) (tt, [])).
  reflexivity.
Defined.

End StreamlitFacts.

(** ** The run *)

Module OrchestratorFacts.
Import Frame LLM Streamlit FirstExchange Presenting Orchestrator.
Import FrameOpsFacts PruningFacts ExchangeFacts StreamlitFacts.

Section Presents.

Context {Ext Momentum : Type}.
Variable P : list (shown Momentum) -> Prop.

Local Abbreviation Page := (Page (Ext := Ext) (Momentum := Momentum)).

(** A stage that leaves the page alone, then the rest. *)
Lemma presents_after_quiet {A B : Type} (c : M (World := Page) A) (k : A -> M B) :
  keeps snd c -> (forall a, presents P (k a)) -> presents P (M_bind c k).
Proof.
  intros Hc Hk w. unfold M_bind. specialize (Hc w).
  destruct (c w) as [[a|e] w1]; simpl in Hc.
  - destruct (Hk a w1) as [(e & w' & E & Hs)|(b & w' & evs & E & Hs & HP)].
    + left. exists e, w'. split; [exact E | congruence].
    + right. exists b, w', evs. rewrite <- Hc. auto.
  - left. eauto.
Qed.

(** A stage without effects, then the rest with what the stage returned. *)
Lemma presents_after_pure {A B : Type} (r : result A) (k : A -> M (World := Page) B) :
  (forall a, r = Return a -> presents P (k a)) -> presents P (M_bind (lift r) k).
Proof.
  intros Hk w. unfold M_bind, lift. destruct r as [a|e].
  - apply Hk. reflexivity.
  - left. eauto.
Qed.

End Presents.

Section OrchestratorFacts.

Context {Ext : Type} {Sofascore Understat Momentum : Type}.
Variable scrape_player_match_stats :
  Sofascore -> string -> Ext -> result DataFrame * Ext.
Variable scrape_match_momentum :
  Sofascore -> string -> Ext -> result Momentum * Ext.
Variable scrape_team_match_stats :
  Sofascore -> string -> Ext -> result (list Pivot.StatRow) * Ext.
Variable get_match_dict : Sofascore -> string -> Ext -> result value * Ext.
Variable scrape_match : Understat -> string -> Ext -> result value * Ext.
Variable requests_post : request -> Ext -> result response * Ext.
Variable print : value -> Ext -> Ext.
Variable json_dumps : value -> string.
Variable json_decode : string -> option value.
Variable float_of_string : string -> option spec_float.
Variable str_exn : exn -> string.
Variable format_other : value -> string.

Local Abbreviation run :=
  (run scrape_player_match_stats scrape_match_momentum scrape_team_match_stats
       get_match_dict scrape_match requests_post print json_dumps json_decode
       float_of_string str_exn format_other).

Lemma outside_quiet {A : Type} (c : Ext -> result A * Ext) :
  keeps snd (outside (Momentum := Momentum) c).
Proof. intros w. reflexivity. Qed.

(** The five uploads of a run: they return, and the tables they show are
    the two subsets and the three selections of the outfield subset. *)
Lemma uploads_present (gk o : DataFrame) (position : list value)
    (momentum_df : Momentum) (team_stats_df : list Pivot.StatRow)
    (prompt : string) (llm_output understat_df : value) :
  find_column (columns o) "position" = Some position ->
  GeneralStats.hides_raw_columns gk -> GeneralStats.hides_raw_columns o ->
  presents no_raw_column
    (M_bind (upload_stats (Ext := Ext) gk o) (fun _ =>
     M_bind (upload_momentum print momentum_df) (fun _ =>
     M_bind (upload_team_stats print team_stats_df) (fun _ =>
     M_bind (upload_match_report print prompt llm_output) (fun _ =>
     upload_understat understat_df))))).
Proof.
  intros Hpos Hgk Ho w. right. unfold M_bind at 1.
  rewrite (upload_stats_run gk o position w Hpos).
  unfold upload_momentum, upload_team_stats, upload_match_report, upload_understat.
  cbn [bind ret Monad_Page]. unfold M_bind, show, console. cbn [fst snd].
  do 3 eexists. split; [reflexivity|]. split.
  - repeat rewrite <- app_assoc. reflexivity.
  - unfold no_raw_column. simpl.
    assert (Hloc : forall mask, GeneralStats.hides_raw_columns (loc o mask)).
    { intros mask name Hin. unfold has_column. rewrite column_names_loc.
      exact (Ho name Hin). }
    repeat constructor; auto.
Qed.

(** A run either raises with the page untouched, or returns having shown
    only tables without raw columns. *)
Lemma run_presents (scraper : Scraper.Scraper) : presents no_raw_column (run scraper).
Proof.
  unfold Orchestrator.run. cbn [bind Monad_Page].
  apply presents_after_quiet; [apply outside_quiet|]. intros raw.
  apply presents_after_pure. intros player_stats_df Hplayers.
  apply GeneralStatsFacts.general_stats_hides in Hplayers.
  apply presents_after_quiet; [apply outside_quiet|]. intros momentum_df.
  apply presents_after_quiet; [apply outside_quiet|]. intros team_stats_df.
  apply presents_after_quiet; [apply outside_quiet|]. intros match_stats_dict.
  apply presents_after_quiet; [apply outside_quiet|]. intros understat_df.
  apply presents_after_pure. intros gk_stats Hgk.
  apply presents_after_pure. intros o_stats Ho.
  apply presents_after_pure. intros prompt _.
  apply presents_after_quiet.
  { apply general_match_report_keeps.
    - intros r. apply outside_quiet.
    - intros v w. reflexivity. }
  intros llm_output.
  destruct (preprocess_outfield_columns _ _ Ho) as [[position Hpos] Hcols].
  apply (uploads_present gk_stats o_stats position); [exact Hpos| |].
  - intros name Hin. exact (preprocess_gk_columns _ _ name Hgk (Hplayers name Hin)).
  - intros name Hin. exact (Hcols name (Hplayers name Hin)).
Qed.

(** X15: a run that raises, at whatever stage, has shown nothing: the page
    is as it was before the run. *)
Theorem run_failure_shows_nothing (scraper : Scraper.Scraper) (w : Page) (e : exn) :
  fst (run scraper w) = Raise e ->
  snd (snd (run scraper w)) = snd w.
Proof.
  intros H. destruct (run_presents scraper w)
    as [(e' & w' & E & Hs)|(a & w' & evs & E & _)]; rewrite E in *.
  - exact Hs.
  - discriminate.
Qed.

(** X16: a run that returns has added to the page, and no table it added
    has one of the raw columns the preprocessing removes: the seven
    irrelevant ones, [country] and [ratingVersions]. *)
Theorem run_shows_no_raw_column (scraper : Scraper.Scraper) (w w' : Page) :
  run scraper w = (Return tt, w') ->
  exists evs, snd w' = (snd w ++ evs)%list
              /\ Forall GeneralStats.hides_raw_columns (tables evs).
Proof.
  intros H. destruct (run_presents scraper w)
    as [(e' & w1 & E & _)|(a & w1 & evs & E & Hs & HP)]; rewrite E in H.
  - discriminate.
  - inversion H. subst w1. exists evs. split; [exact Hs | exact HP].
Qed.

End OrchestratorFacts.

Lemma run_failure_shows_nothing_witness :
  fst (demo_run GeneralStats.raw_players_no_country (0%nat, [])) = Raise TypeError
  /\ snd (snd (demo_run GeneralStats.raw_players_no_country (0%nat, []))) = [].
Proof.
  split; [vm_compute; reflexivity|].
  apply (run_failure_shows_nothing
           (fun (_ : unit) _ w => (Return GeneralStats.raw_players_no_country, S w))
           (fun (_ : unit) _ w => (Return tt, S w))
           (fun (_ : unit) _ w => (Return Prompt.sample_rows, S w))
           (fun (_ : unit) _ w =>
              (Return (Prompt.scenario_dict (VStr "Slot") (VStr "Amorim") (VStr "Anfield")),
               S w))
           (fun (_ : unit) _ w => (Return VNone, S w))
           obliging (fun _ w => w) (fun _ => "{}") decode_report (fun _ => None)
           (fun _ => "error") (fun _ => "")
           (Scraper.init tt tt default_match_url) (0%nat, []) TypeError).
  vm_compute. reflexivity.
Defined.

Lemma run_shows_no_raw_column_witness :
  fst (demo_run GeneralStats.raw_players (0%nat, [])) = Return tt
  /\ exists evs,
       snd (snd (demo_run GeneralStats.raw_players (0%nat, []))) = ([] ++ evs)%list
       /\ Forall GeneralStats.hides_raw_columns (tables evs).
Proof.
  split; [vm_compute; reflexivity|].
  apply (run_shows_no_raw_column
           (fun (_ : unit) _ w => (Return GeneralStats.raw_players, S w))
           (fun (_ : unit) _ w => (Return tt, S w))
           (fun (_ : unit) _ w => (Return Prompt.sample_rows, S w))
           (fun (_ : unit) _ w =>
              (Return (Prompt.scenario_dict (VStr "Slot") (VStr "Amorim") (VStr "Anfield")),
               S w))
           (fun (_ : unit) _ w => (Return VNone, S w))
           obliging (fun _ w => w) (fun _ => "{}") decode_report (fun _ => None)
           (fun _ => "error") (fun _ => "")
           (Scraper.init tt tt default_match_url) (0%nat, [])
           (snd (demo_run GeneralStats.raw_players (0%nat, [])))).
  vm_compute. reflexivity.
Defined.

End OrchestratorFacts.
